(** * scraperApp: the search-results front end, embedded in Rocq

    The repository is a small browser application: [apiModel.js] issues the
    HTTP request, [resultsBuilder.js] (class [ResultsUIBuilder]) renders the
    header, the pagination bar and the card grid, [CardBuilder.js] builds one
    product card and [main.js] owns the page state and reacts to clicks.

    The embedding keeps the shape of the JavaScript:
    - a JavaScript value is a [JS.value]; a number is a [JS.number], whose
      finite values are rationals (every binary64 value is one, and the code
      only compares, takes minima and maxima, floors and adds or subtracts 1,
      all of which are exact on the values that occur); [-0] is identified
      with [0];
    - page numbers handled by the pagination bar and by the controller are
      integers ([Z]); the bar is embedded a second time on numbers
      ([ResultsUIRender.Num]), for what the builder renders when its setters
      were given a number that is not an integer;
    - a string is a [string] of code units below 256;
    - builders are records and their fluent setters are functions from record
      to record; code that can throw returns a [JS.result];
    - what the host provides and the repository does not define (parsing a
      string as a number, printing a fraction, locale formatting) is a
      parameter, the class [JS.Host]. *)

From Stdlib Require Import ZArith QArith Qround Qminmax String Ascii List Lia Bool.
From Stdlib Require Import DecimalString DecimalPos FinFun Sorted Lqa.
Import ListNotations.

#[local] Set Warnings "-register-all".

Open Scope string_scope.
Open Scope Z_scope.
Open Scope list_scope.

(* ================================================================== *)
(** * Part I. The embedding *)
(* ================================================================== *)

(** ** JavaScript values and the built-ins the code calls *)

Module JS.

(** A JavaScript number. *)
Inductive number : Type :=
| NaN
| PInf
| NInf
| Fin (q : Q).

Definition ofZ (z : Z) : number := Fin (inject_Z z).

(** A JavaScript value, as [JSON.parse] and the DOM hand it to the code
    ([VUndefined] is an absent property or a missing argument). *)
Inductive value : Type :=
| VUndefined
| VNull
| VBool (b : bool)
| VNum (n : number)
| VStr (s : string)
| VArr (elems : list value)
| VObj (props : list (string * value)).

(** What a [throw] carries: the error's name and message. *)
Record error : Type := Err { errName : string ; errMessage : string }.

Inductive result (A : Type) : Type :=
| Ok (a : A)
| Throw (e : error).
Arguments Ok {A} a.
Arguments Throw {A} e.

Definition bind {A B : Type} (r : result A) (k : A -> result B) : result B :=
  match r with
  | Ok a => k a
  | Throw e => Throw e
  end.

Notation "'let!' x ':=' r 'in' k" := (bind r (fun x => k))
  (at level 10, x name, r at level 100, k at level 200).

Definition TypeError (msg : string) : error := Err "TypeError" msg.

(** *** Strings *)

Definition code (c : ascii) : Z := Z.of_N (N_of_ascii c).

(** The quotation mark, for messages that contain one. *)
Definition dquote : string := String (ascii_of_N 34) EmptyString.

(** White space and line terminators among the code units below 256:
    TAB, LF, VT, FF, CR, SP and NBSP. *)
Definition isWhiteSpace (c : ascii) : bool :=
  let n := code c in
  (n =? 9) || (n =? 10) || (n =? 11) || (n =? 12) || (n =? 13)
  || (n =? 32) || (n =? 160).

Fixpoint trimStart (s : string) : string :=
  match s with
  | EmptyString => EmptyString
  | String c r => if isWhiteSpace c then trimStart r else s
  end.

Fixpoint trimEnd (s : string) : string :=
  match s with
  | EmptyString => EmptyString
  | String c r =>
      let r' := trimEnd r in
      if isWhiteSpace c && (r' =? "")%string then EmptyString else String c r'
  end.

(** [s.trim()]. *)
Definition trim (s : string) : string := trimEnd (trimStart s).

(** Empty or made of white space only. *)
Definition blank (s : string) : bool :=
  forallb isWhiteSpace (list_ascii_of_string s).

(** [s.includes(sub)]. *)
Definition includes (s sub : string) : bool :=
  match index 0 sub s with Some _ => true | None => false end.

Fixpoint join (sep : string) (l : list string) : string :=
  match l with
  | [] => EmptyString
  | [x] => x
  | x :: r => (x ++ sep ++ join sep r)%string
  end.

(** [String(p)] for an integer [p] (below 10^21 in magnitude, where
    JavaScript switches to exponent notation). *)
Definition StringZ (p : Z) : string := NilZero.string_of_int (Z.to_int p).

(** *** Numbers *)

Definition isIntegral (q : Q) : bool := Qeq_bool q (inject_Z (Qfloor q)).

Definition Qlt_bool (a b : Q) : bool := negb (Qle_bool b a).

(** [Math.max(a, b)]. *)
Definition Math_max (a b : number) : number :=
  match a, b with
  | NaN, _ | _, NaN => NaN
  | PInf, _ | _, PInf => PInf
  | NInf, x | x, NInf => x
  | Fin x, Fin y => if Qle_bool x y then Fin y else Fin x
  end.

(** [Math.min(a, b)]. *)
Definition Math_min (a b : number) : number :=
  match a, b with
  | NaN, _ | _, NaN => NaN
  | NInf, _ | _, NInf => NInf
  | PInf, x | x, PInf => x
  | Fin x, Fin y => if Qle_bool x y then Fin x else Fin y
  end.

(** [Math.floor(a)]. *)
Definition Math_floor (a : number) : number :=
  match a with
  | Fin q => Fin (inject_Z (Qfloor q))
  | _ => a
  end.

(** [a < b] on numbers. *)
Definition lt (a b : number) : bool :=
  match a, b with
  | NaN, _ | _, NaN => false
  | PInf, _ | _, NInf => false
  | NInf, _ | _, PInf => true
  | Fin x, Fin y => Qlt_bool x y
  end.

(** [a === b] on numbers. *)
Definition strictEq (a b : number) : bool :=
  match a, b with
  | PInf, PInf | NInf, NInf => true
  | Fin x, Fin y => Qeq_bool x y
  | _, _ => false
  end.

(** [Array(n).fill(x)] for a number [n] that is a valid array length (any
    other [n] is a RangeError in JavaScript; the code calls it with the
    floor of a number clamped to [0, 5]). *)
Definition Array_fill {A : Type} (n : number) (x : A) : list A :=
  match n with
  | Fin q => repeat x (Z.to_nat (Qfloor q))
  | _ => []
  end.

Definition push {A : Type} (items : list A) (x : A) : list A := items ++ [x].

(** [Array.prototype.map] and [forEach] with a callback that may throw. *)
Fixpoint mapM {A B : Type} (f : A -> result B) (l : list A) : result (list B) :=
  match l with
  | [] => Ok []
  | x :: r =>
      let! y := f x in
      let! ys := mapM f r in
      Ok (y :: ys)
  end.

(** What the host provides. [StringToNumber] is the conversion that
    [Number(s)] applies to a string; [FractionToString] prints a finite
    number that is not an integer; [NumberToLocaleString] is
    [Number.prototype.toLocaleString]. *)
Class Host : Type := {
  StringToNumber : string -> number ;
  FractionToString : Q -> string ;
  NumberToLocaleString : number -> string
}.

Section WithHost.
Context {host : Host}.

(** [String(n)] for a number. *)
Definition NumberToString (n : number) : string :=
  match n with
  | NaN => "NaN"
  | PInf => "Infinity"
  | NInf => "-Infinity"
  | Fin q => if isIntegral q then StringZ (Qfloor q)
             else FractionToString (Qred q)
  end.

(** [String(v)]. *)
Fixpoint ToString (v : value) : string :=
  match v with
  | VUndefined => "undefined"
  | VNull => "null"
  | VBool true => "true"
  | VBool false => "false"
  | VNum n => NumberToString n
  | VStr s => s
  | VArr elems =>
      join ","
        (map (fun e => match e with
                       | VUndefined | VNull => EmptyString
                       | _ => ToString e
                       end) elems)
  | VObj _ => "[object Object]"
  end.

(** [Number(v)]. *)
Definition ToNumber (v : value) : number :=
  match v with
  | VUndefined => NaN
  | VNull => Fin 0
  | VBool true => Fin 1
  | VBool false => Fin 0
  | VNum n => n
  | VStr s => StringToNumber s
  | VArr _ | VObj _ => StringToNumber (ToString v)
  end.

(** [v.toLocaleString()]. *)
Fixpoint toLocaleString (v : value) : result string :=
  match v with
  | VUndefined | VNull =>
      Throw (TypeError "Cannot read properties of undefined or null")
  | VNum n => Ok (NumberToLocaleString (match n with
                                        | Fin q => Fin (Qred q)
                                        | _ => n
                                        end))
  | VArr elems =>
      let! parts :=
        (fix each (l : list value) : result (list string) :=
           match l with
           | [] => Ok []
           | e :: r =>
               let! s := match e with
                         | VUndefined | VNull => Ok EmptyString
                         | _ => toLocaleString e
                         end in
               let! ss := each r in
               Ok (s :: ss)
           end) elems in
      Ok (join "," parts)
  | _ => Ok (ToString v)
  end.

End WithHost.

(** *** Truthiness, nullish values, type tests *)

Definition isZero (q : Q) : bool := Qeq_bool q 0.

(** [Boolean(v)]: what [if (v)], [!v], [a || b] test. *)
Definition truthy (v : value) : bool :=
  match v with
  | VUndefined | VNull => false
  | VBool b => b
  | VNum NaN => false
  | VNum (Fin q) => negb (isZero q)
  | VNum _ => true
  | VStr s => negb (s =? "")%string
  | VArr _ | VObj _ => true
  end.

(** [v == null]. *)
Definition nullish (v : value) : bool :=
  match v with
  | VUndefined | VNull => true
  | _ => false
  end.

(** [a || b]. *)
Definition or_ (a b : value) : value := if truthy a then a else b.

(** [a ?? b]. *)
Definition coalesce (a b : value) : value := if nullish a then b else a.

(** [n || d] on a number. *)
Definition numOr (n d : number) : number :=
  if truthy (VNum n) then n else d.

(** [Number.isFinite(v)] (no coercion). *)
Definition Number_isFinite (v : value) : bool :=
  match v with
  | VNum (Fin _) => true
  | _ => false
  end.

Definition isFiniteNumber (n : number) : bool := Number_isFinite (VNum n).

(** [obj.key] on a value that is not [null] or [undefined]; the keys read
    by the code ([count], [totalPages], [products], [title], ...) are own
    properties of plain objects only. *)
Fixpoint lookup (key : string) (props : list (string * value)) : value :=
  match props with
  | [] => VUndefined
  | (k, v) :: r => if (k =? key)%string then v else lookup key r
  end.

Definition get (v : value) (key : string) : result value :=
  match v with
  | VUndefined | VNull =>
      Throw (TypeError "Cannot read properties of undefined or null")
  | VObj props => Ok (lookup key props)
  | _ => Ok VUndefined
  end.

(** [v?.key]. *)
Definition getOpt (v : value) (key : string) : value :=
  match v with
  | VObj props => lookup key props
  | _ => VUndefined
  end.

(** *** [parseInt] *)

Definition digitValue (c : ascii) : option Z :=
  let n := code c in
  if (48 <=? n) && (n <=? 57) then Some (n - 48)
  else if (97 <=? n) && (n <=? 122) then Some (n - 87)
  else if (65 <=? n) && (n <=? 90) then Some (n - 55)
  else None.

(** The value of the longest prefix of radix-[R] digits; [acc] is [None]
    until a digit has been read. *)
Fixpoint digitsPrefix (R : Z) (s : string) (acc : option Z) : option Z :=
  match s with
  | EmptyString => acc
  | String c r =>
      match digitValue c with
      | Some d =>
          if d <? R
          then digitsPrefix R r
                 (Some (R * match acc with Some a => a | None => 0 end + d))
          else acc
      | None => acc
      end
  end.

Definition stripHexPrefix (s : string) : option string :=
  match s with
  | String c0 (String c1 r) =>
      if (code c0 =? 48) && ((code c1 =? 120) || (code c1 =? 88))
      then Some r else None
  | _ => None
  end.

(** [parseInt(s, radix)]; [radix = None] is a call with one argument and
    [None] as a result is [NaN]. Exact below 2^53. *)
Definition parseInt (s : string) (radix : option Z) : option Z :=
  let s := trimStart s in
  let '(sign, s) :=
    match s with
    | String c r =>
        if code c =? 45 then (-1, r)
        else if code c =? 43 then (1, r)
        else (1, s)
    | EmptyString => (1, s)
    end in
  let R := match radix with Some r => r | None => 0 end in
  if negb (R =? 0) && ((R <? 2) || (36 <? R)) then None
  else
    let stripPrefix := (R =? 0) || (R =? 16) in
    let R := if R =? 0 then 10 else R in
    let '(R, s) :=
      if stripPrefix
      then match stripHexPrefix s with
           | Some r => (16, r)
           | None => (R, s)
           end
      else (R, s) in
    match digitsPrefix R s None with
    | Some n => Some (sign * n)
    | None => None
    end.

(** *** [URLSearchParams] *)

Definition isUrlSafe (c : ascii) : bool :=
  let n := code c in
  ((48 <=? n) && (n <=? 57)) || ((65 <=? n) && (n <=? 90))
  || ((97 <=? n) && (n <=? 122))
  || (n =? 42) || (n =? 45) || (n =? 46) || (n =? 95).

Definition hexDigit (d : Z) : ascii :=
  ascii_of_N (Z.to_N (if d <? 10 then 48 + d else 55 + d)).

Definition percent (byte : Z) : string :=
  String "%" (String (hexDigit (byte / 16))
                (String (hexDigit (byte mod 16)) EmptyString)).

(** One code unit, serialized as [application/x-www-form-urlencoded]
    (UTF-8, two bytes from 128 on). *)
Definition encodeUnit (c : ascii) : string :=
  let n := code c in
  if n =? 32 then "+"
  else if isUrlSafe c then String c EmptyString
  else if n <? 128 then percent n
  else (percent (192 + n / 64) ++ percent (128 + n mod 64))%string.

Fixpoint urlencode (s : string) : string :=
  match s with
  | EmptyString => EmptyString
  | String c r => (encodeUnit c ++ urlencode r)%string
  end.

Definition URLSearchParams : Type := list (string * string).

(** [params.set(name, v)]: replace the first pair called [name] and drop
    the others, or append. *)
Fixpoint params_set (ps : URLSearchParams) (name v : string) : URLSearchParams :=
  match ps with
  | [] => [(name, v)]
  | (k, w) :: r =>
      if (k =? name)%string
      then (k, v) :: filter (fun kv => negb (fst kv =? name)%string) r
      else (k, w) :: params_set r name v
  end.

(** [params.toString()]. *)
Definition params_toString (ps : URLSearchParams) : string :=
  join "&" (map (fun kv => (urlencode (fst kv) ++ "=" ++ urlencode (snd kv))%string) ps).

(** *** A host for worked examples

    It reads a string of decimal digits as the integer it spells, a blank
    string as 0 and every other string as [NaN]; it prints a fraction as
    numerator, slash, denominator and formats a number for the locale the
    way [String] prints it. It stands in for the browser only where an
    example has to name a host. *)

Definition isDigit (c : ascii) : bool := (48 <=? code c) && (code c <=? 57).

Definition exampleHost : Host :=
  {| StringToNumber := fun s =>
       let s := trim s in
       if (s =? "")%string then Fin 0
       else if forallb isDigit (list_ascii_of_string s)
            then match digitsPrefix 10 s None with
                 | Some n => ofZ n
                 | None => NaN
                 end
            else NaN ;
     FractionToString := fun q =>
       (StringZ (Qnum q) ++ "/" ++ StringZ (Zpos (Qden q)))%string ;
     NumberToLocaleString := fun n =>
       match n with
       | NaN => "NaN"
       | PInf => "Infinity"
       | NInf => "-Infinity"
       | Fin q => if isIntegral q then StringZ (Qfloor q)
                  else (StringZ (Qnum q) ++ "/" ++ StringZ (Zpos (Qden q)))%string
       end |}.

End JS.

(** ** The part of the DOM the builders write *)

Module DOM.

(** An element with its class list, the attributes the code sets through
    properties ([src], [alt], [href], [target], [data-asin]) and its
    children; or a text node. *)
Inductive Node : Type :=
| Element (tag : string) (classes : list string)
          (attrs : list (string * string)) (children : list Node)
| Text (data : string).

(** [document.createElement(tag)]. *)
Definition createElement (tag : string) : Node := Element tag [] [] [].

Definition tagOf (n : Node) : string :=
  match n with Element tag _ _ _ => tag | Text _ => "#text" end.

Definition classesOf (n : Node) : list string :=
  match n with Element _ cls _ _ => cls | Text _ => [] end.

Definition childrenOf (n : Node) : list Node :=
  match n with Element _ _ _ ch => ch | Text _ => [] end.

Definition hasClass (c : string) (n : Node) : bool :=
  existsb (fun d => (d =? c)%string) (classesOf n).

(** [el.classList.add(c)]. *)
Definition classList_add (c : string) (n : Node) : Node :=
  match n with
  | Element tag cls attrs ch =>
      if hasClass c n then n else Element tag (cls ++ [c]) attrs ch
  | Text _ => n
  end.

(** [el.classList.remove(c)]. *)
Definition classList_remove (c : string) (n : Node) : Node :=
  match n with
  | Element tag cls attrs ch =>
      Element tag (filter (fun d => negb (d =? c)%string) cls) attrs ch
  | Text _ => n
  end.

Fixpoint setPair (name v : string) (l : list (string * string))
  : list (string * string) :=
  match l with
  | [] => [(name, v)]
  | (k, w) :: r =>
      if (k =? name)%string then (k, v) :: r else (k, w) :: setPair name v r
  end.

(** [el.name = v] for a reflected attribute. *)
Definition setAttr (name v : string) (n : Node) : Node :=
  match n with
  | Element tag cls attrs ch => Element tag cls (setPair name v attrs) ch
  | Text _ => n
  end.

(** [el.appendChild(c)]. *)
Definition appendChild (c : Node) (n : Node) : Node :=
  match n with
  | Element tag cls attrs ch => Element tag cls attrs (ch ++ [c])
  | Text _ => n
  end.

(** [el.textContent = s] for a string [s]; [el.innerHTML = ""] is
    [setTextContent ""]. *)
Definition setTextContent (s : string) (n : Node) : Node :=
  match n with
  | Element tag cls attrs _ =>
      Element tag cls attrs (if (s =? "")%string then [] else [Text s])
  | Text _ => n
  end.

(** [el.querySelector("img")] followed by [imgEl.alt = alt]: the first
    [img] among the descendants of [n], in tree order, gets the attribute.
    [None] when there is no such element. *)
Fixpoint setAltHere (alt : string) (n : Node) : option Node :=
  match n with
  | Element tag cls attrs ch =>
      if (tag =? "img")%string
      then Some (Element tag cls (setPair "alt" alt attrs) ch)
      else
        match
          (fix first (l : list Node) : option (list Node) :=
             match l with
             | [] => None
             | c :: r =>
                 match setAltHere alt c with
                 | Some c' => Some (c' :: r)
                 | None =>
                     match first r with
                     | Some r' => Some (c :: r')
                     | None => None
                     end
                 end
             end) ch
        with
        | Some ch' => Some (Element tag cls attrs ch')
        | None => None
        end
  | Text _ => None
  end.

Fixpoint setAltFirst (alt : string) (l : list Node) : option (list Node) :=
  match l with
  | [] => None
  | c :: r =>
      match setAltHere alt c with
      | Some c' => Some (c' :: r)
      | None =>
          match setAltFirst alt r with
          | Some r' => Some (c :: r')
          | None => None
          end
      end
  end.

Definition setFirstImgAlt (alt : string) (n : Node) : Node :=
  match n with
  | Element tag cls attrs ch =>
      match setAltFirst alt ch with
      | Some ch' => Element tag cls attrs ch'
      | None => n
      end
  | Text _ => n
  end.

End DOM.

(** ** [CardBuilder.js] *)

Module CardBuilder.
Import JS DOM.

Record t : Type := mk {
  imageSrc : value ;
  description : value ;
  stars : list value ;
  rating : value ;
  reviewCount : value ;
  link : value
}.

(** Internal assets for star icons. *)
Definition _FULL : string := "./star.svg".
Definition _HALF : string := "./star-half.svg".

(** [new CardBuilder()]. *)
Definition new : t :=
  {| imageSrc := VStr "" ; description := VStr "" ; stars := [] ;
     rating := VNum (Fin 0) ; reviewCount := VNum (Fin 0) ;
     link := VStr "#" |}.

Definition setImage (src : value) (b : t) : t :=
  mk src (description b) (stars b) (rating b) (reviewCount b) (link b).

Definition setDescription (desc : value) (b : t) : t :=
  mk (imageSrc b) desc (stars b) (rating b) (reviewCount b) (link b).

Definition setRating (r : value) (b : t) : t :=
  mk (imageSrc b) (description b) (stars b) r (reviewCount b) (link b).

Definition setReviewCount (count : value) (b : t) : t :=
  mk (imageSrc b) (description b) (stars b) (rating b) count (link b).

Definition setLink (l : value) (b : t) : t :=
  mk (imageSrc b) (description b) (stars b) (rating b) (reviewCount b) l.

Definition withStars (icons : list value) (b : t) : t :=
  mk (imageSrc b) (description b) icons (rating b) (reviewCount b) (link b).

Section WithHost.
Context {host : Host}.

(** [setStars(starArrayOrRating)]. *)
Definition setStars (starArrayOrRating : value) (b : t) : t :=
  match starArrayOrRating with
  | VArr elems =>
      (* already an array of icon paths: use it verbatim *)
      withStars elems b
  | _ =>
      let rating := ToNumber starArrayOrRating in
      if negb (isFiniteNumber rating) then
        (* invalid input: clear stars and bail *)
        withStars [] b
      else
        let b := setRating (VNum rating) b in
        let r := Math_min (Fin 5) (Math_max (Fin 0) rating) in
        let full := Math_floor r in
        let hasHalf := lt r (Fin 5) && negb (strictEq r full) in
        let icons := Array_fill full (VStr _FULL) in
        let icons := if hasHalf then push icons (VStr _HALF) else icons in
        withStars icons b
  end.

(** [starSrc.includes('half')]: a string or an array has the method; on
    [null] or [undefined] reading the property fails; any other value has no
    such method. *)
Definition includesHalf (starSrc : value) : result bool :=
  match starSrc with
  | VStr s => Ok (includes s "half")
  | VArr elems =>
      Ok (existsb (fun e => match e with
                            | VStr s => (s =? "half")%string
                            | _ => false
                            end) elems)
  | VUndefined | VNull =>
      Throw (TypeError "Cannot read properties of undefined or null")
  | _ => Throw (TypeError "starSrc.includes is not a function")
  end.

(** The callback of [this.stars.forEach]: one [<span class=star>] with the
    icon inside. *)
Definition starSpan (starSrc : value) : result Node :=
  let span := classList_add "star" (createElement "span") in
  let starImg := createElement "img" in
  let starImg := setAttr "src" (ToString starSrc) starImg in
  let! half := includesHalf starSrc in
  let starImg :=
    setAttr "alt" (if half then "half-star-review" else "full-star-review")
      starImg in
  Ok (appendChild starImg span).

(** [build()]. *)
Definition build (b : t) : result Node :=
  let card := classList_add "card" (createElement "div") in
  (* image *)
  let img := createElement "img" in
  let img := setAttr "src" (ToString (imageSrc b)) img in
  let img := setAttr "alt" ("product image " ++ ToString (description b))%string img in
  let card := appendChild img card in
  (* description *)
  let desc := createElement "p" in
  let desc := setTextContent (if nullish (description b) then EmptyString
                              else ToString (description b)) desc in
  let card := appendChild desc card in
  (* only render rating/reviews UI when a rating value exists *)
  let! card :=
    if negb (nullish (rating b)) then
      let score := classList_add "score" (createElement "div") in
      let! spans := mapM starSpan (stars b) in
      let score := fold_left (fun sc sp => appendChild sp sc) spans score in
      let ratingSpan := createElement "span" in
      let ratingSpan :=
        setTextContent ("(" ++ ToString (rating b) ++ ")")%string ratingSpan in
      let score := appendChild ratingSpan score in
      let card := appendChild score card in
      let reviews := classList_add "reviews" (createElement "div") in
      let bubbleImg := createElement "img" in
      let bubbleImg := setAttr "src" "./message-bubble.svg" bubbleImg in
      let bubbleImg := setAttr "alt" "message-bubble" bubbleImg in
      let reviews := appendChild bubbleImg reviews in
      let countSpan := createElement "span" in
      let! countText := toLocaleString (reviewCount b) in
      let countSpan := setTextContent countText countSpan in
      let reviews := appendChild countSpan reviews in
      let textSpan := createElement "span" in
      let textSpan := setTextContent "reviews" textSpan in
      let reviews := appendChild textSpan reviews in
      Ok (appendChild reviews card)
    else Ok card in
  (* divider *)
  let card := appendChild (createElement "hr") card in
  (* link *)
  let linkEl := createElement "a" in
  let linkEl := setAttr "href" (ToString (link b)) linkEl in
  let linkEl := setAttr "target" "_blank" linkEl in
  let linkIcon := createElement "img" in
  let linkIcon := setAttr "src" "./link.svg" linkIcon in
  let linkIcon := setAttr "alt" "link-icon" linkIcon in
  let linkEl := appendChild linkIcon linkEl in
  let linkEl := appendChild (Text " View on Amazon") linkEl in
  let card := appendChild linkEl card in
  Ok card.

End WithHost.

(** The rating block of a card: a child [<div class=score>] (stars and
    numeric rating) or [<div class=reviews>] (review count). *)
Definition isBlock (cls : string) (n : Node) : bool :=
  (tagOf n =? "div")%string && hasClass cls n.

Definition hasScoreBlock (card : Node) : bool :=
  existsb (isBlock "score") (childrenOf card).

Definition hasReviewsBlock (card : Node) : bool :=
  existsb (isBlock "reviews") (childrenOf card).

Definition hasRatingBlock (card : Node) : bool :=
  hasScoreBlock card || hasReviewsBlock card.

End CardBuilder.

(** ** [resultsBuilder.js] *)

Module ResultsUIBuilder.
Import JS DOM.

(** The click handler passed to [onPageClick], by the name of the
    function. *)
Definition Handler : Type := string.

Record t : Type := mk {
  headerEl : option Node ;
  paginationEl : option Node ;
  resultsEl : option Node ;
  iconSrc : value ;
  label : value ;
  keyword : value ;
  count : number ;
  page : number ;
  totalPages : number ;
  onClick : option Handler ;
  products : list value
}.

(** [new ResultsUIBuilder(headerEl, paginationEl, resultsEl = null)]. *)
Definition new (headerEl paginationEl resultsEl : option Node) : t :=
  {| headerEl := headerEl ; paginationEl := paginationEl ;
     resultsEl := resultsEl ;
     iconSrc := VStr "./shopping-cart.svg" ;
     label := VStr "Amazon Products" ;
     keyword := VStr "" ;
     count := Fin 0 ;
     page := Fin 1 ;
     totalPages := Fin 1 ;
     onClick := None ;
     products := [] |}.

Section WithHost.
Context {host : Host}.

(* --------- Fluent setters --------- *)

Definition setIcon (src : value) (b : t) : t :=
  mk (headerEl b) (paginationEl b) (resultsEl b) src (label b) (keyword b)
     (count b) (page b) (totalPages b) (onClick b) (products b).

Definition setLabel (text : value) (b : t) : t :=
  mk (headerEl b) (paginationEl b) (resultsEl b) (iconSrc b) text (keyword b)
     (count b) (page b) (totalPages b) (onClick b) (products b).

(** [this.keyword = kw ?? ""]. *)
Definition setKeyword (kw : value) (b : t) : t :=
  mk (headerEl b) (paginationEl b) (resultsEl b) (iconSrc b) (label b)
     (coalesce kw (VStr ""))
     (count b) (page b) (totalPages b) (onClick b) (products b).

(** [this.count = Number(n) || 0]. *)
Definition setCount (n : value) (b : t) : t :=
  mk (headerEl b) (paginationEl b) (resultsEl b) (iconSrc b) (label b)
     (keyword b)
     (numOr (ToNumber n) (Fin 0))
     (page b) (totalPages b) (onClick b) (products b).

(** [this.page = Math.max(1, Number(p) || 1)]. *)
Definition setPage (p : value) (b : t) : t :=
  mk (headerEl b) (paginationEl b) (resultsEl b) (iconSrc b) (label b)
     (keyword b) (count b)
     (Math_max (Fin 1) (numOr (ToNumber p) (Fin 1)))
     (totalPages b) (onClick b) (products b).

(** [this.products = Array.isArray(p) ? p : []]. *)
Definition setProducts (p : value) (b : t) : t :=
  mk (headerEl b) (paginationEl b) (resultsEl b) (iconSrc b) (label b)
     (keyword b) (count b) (page b) (totalPages b) (onClick b)
     (match p with VArr elems => elems | _ => [] end).

(** [this.totalPages = Math.max(1, Number(tp) || 1)]. *)
Definition setTotalPages (tp : value) (b : t) : t :=
  mk (headerEl b) (paginationEl b) (resultsEl b) (iconSrc b) (label b)
     (keyword b) (count b) (page b)
     (Math_max (Fin 1) (numOr (ToNumber tp) (Fin 1)))
     (onClick b) (products b).

Definition setResultsEl (el : option Node) (b : t) : t :=
  mk (headerEl b) (paginationEl b) el (iconSrc b) (label b)
     (keyword b) (count b) (page b) (totalPages b) (onClick b) (products b).

Definition onPageClick (handler : option Handler) (b : t) : t :=
  mk (headerEl b) (paginationEl b) (resultsEl b) (iconSrc b) (label b)
     (keyword b) (count b) (page b) (totalPages b) handler (products b).

(** One call of a fluent setter, with its argument. *)
Inductive Call : Type :=
| CallSetIcon (src : value)
| CallSetLabel (text : value)
| CallSetKeyword (kw : value)
| CallSetCount (n : value)
| CallSetPage (p : value)
| CallSetProducts (p : value)
| CallSetTotalPages (tp : value)
| CallSetResultsEl (el : option Node)
| CallOnPageClick (handler : option Handler).

Definition call (b : t) (c : Call) : t :=
  match c with
  | CallSetIcon src => setIcon src b
  | CallSetLabel text => setLabel text b
  | CallSetKeyword kw => setKeyword kw b
  | CallSetCount n => setCount n b
  | CallSetPage p => setPage p b
  | CallSetProducts p => setProducts p b
  | CallSetTotalPages tp => setTotalPages tp b
  | CallSetResultsEl el => setResultsEl el b
  | CallOnPageClick handler => onPageClick handler b
  end.

(** A chain [new ResultsUIBuilder(h, p, r).s1(a1). ... .sn(an)]: the state
    in which [build()] then runs. *)
Definition chain (h p r : option Node) (calls : list Call) : t :=
  fold_left call calls (new h p r).

(** The callback of [this.products.map] in [#renderCards]: one card. *)
Definition renderCard (p : value) : result Node :=
  let! image := get p "image" in
  let! title := get p "title" in
  let! url := get p "url" in
  let builder :=
    CardBuilder.setLink (or_ url (VStr "#"))
      (CardBuilder.setDescription (or_ title (VStr "Untitled product"))
         (CardBuilder.setImage (or_ image (VStr "./example.jpg"))
            CardBuilder.new)) in
  let! rating := get p "rating" in
  let! reviews := get p "reviews" in
  let builder :=
    if negb (nullish rating) then
      CardBuilder.setStars rating
        (CardBuilder.setReviewCount
           (VNum (ToNumber (coalesce reviews (VNum (Fin 0)))))
           (CardBuilder.setRating (VNum (ToNumber rating)) builder))
    else
      CardBuilder.setReviewCount
        (VNum (ToNumber (coalesce reviews (VNum (Fin 0))))) builder in
  (* finalize and annotate element *)
  let! el := CardBuilder.build builder in
  let! asin := get p "asin" in
  let el := setAttr "data-asin" (ToString (or_ asin (VStr ""))) el in
  (* propagate product title to image ALT *)
  let el := if truthy title then setFirstImgAlt (ToString title) el else el in
  Ok el.

(** [#renderCards()]: the cards it returns and the results container
    after the call. *)
Definition renderCards (b : t) : result (list Node * option Node) :=
  match resultsEl b with
  | None => Ok ([], None)
  | Some el =>
      let! cards := mapM renderCard (products b) in
      let el := setTextContent "" el in
      let el := fold_left (fun e c => appendChild c e) cards el in
      let el := classList_remove "hide" el in
      Ok (cards, Some el)
  end.

(** [build()]. [#renderHeader] and [#renderPagination] run first; they
    write the header and the pagination regions, cannot throw, and
    terminate when [page] is finite. What [build] can fail with, and the
    cards it produces, come from [#renderCards]. *)
Definition build (b : t) : result (list Node * option Node) :=
  renderCards b.

End WithHost.

(** The objects pushed by [#buildPageList]:
    [{type, page?, label?, current?, disabled?}]; a key the object literal
    does not mention is [None]. *)
Module Item.
Inductive kind : Type := typePage | typeEllipsis.

Record t : Type := mk {
  type : kind ;
  page : option Z ;
  label : option string ;
  current : option bool ;
  disabled : option bool
}.
End Item.

(** [for (let p = start; p <= end; p++) items.push({...})]. [fuel] bounds
    the number of iterations. *)
Fixpoint windowLoop (fuel : nat) (p end_ current : Z) (items : list Item.t)
  : list Item.t :=
  match fuel with
  | O => items
  | S fuel' =>
      if p <=? end_ then
        windowLoop fuel' (p + 1) end_ current
          (push items
             {| Item.type := Item.typePage; Item.page := Some p; Item.label := Some (JS.StringZ p);
                Item.current := Some (p =? current); Item.disabled := None |})
      else items
  end.

(** [#buildPageList(current, total, neighbors = 1)]. *)
Definition buildPageList (current total : Z) (neighbors : Z) : list Item.t :=
  let clamp := fun n => Z.max 1 (Z.min total n) in
  let items := [] in
  (* Prev control *)
  let items :=
    push items {| Item.type := Item.typePage; Item.page := Some (clamp (current - 1));
                  Item.label := Some "Prev"; Item.current := None;
                  Item.disabled := Some (current <=? 1) |} in
  (* Always show page 1 *)
  let items :=
    push items {| Item.type := Item.typePage; Item.page := Some 1; Item.label := Some "1";
                  Item.current := Some (current =? 1); Item.disabled := None |} in
  (* Window of neighbors around the current page *)
  let start := Z.max 2 (current - neighbors) in
  let end_ := Z.min (total - 1) (current + neighbors) in
  let items :=
    if start >? 2
    then push items {| Item.type := Item.typeEllipsis; Item.page := None; Item.label := None;
                       Item.current := None; Item.disabled := None |}
    else items in
  let items := windowLoop (Z.to_nat (end_ + 1 - start)) start end_ current items in
  let items :=
    if end_ <? total - 1
    then push items {| Item.type := Item.typeEllipsis; Item.page := None; Item.label := None;
                       Item.current := None; Item.disabled := None |}
    else items in
  (* Always show last page (if more than one page) *)
  let items :=
    if total >? 1
    then push items {| Item.type := Item.typePage; Item.page := Some total;
                       Item.label := Some (JS.StringZ total);
                       Item.current := Some (current =? total); Item.disabled := None |}
    else items in
  (* Next control *)
  let items :=
    push items {| Item.type := Item.typePage; Item.page := Some (clamp (current + 1));
                  Item.label := Some "Next"; Item.current := None;
                  Item.disabled := Some (current >=? total) |} in
  items.

(** The default value of the third parameter. *)
Definition buildPageList1 (current total : Z) : list Item.t :=
  buildPageList current total 1.

End ResultsUIBuilder.

(** ** [apiModel.js] *)

Module ApiModel.
Import JS.

Definition API_BASE : string := "http://localhost:8081/api".

(** How the network answers one [fetch]: it rejects (no connection), it is
    aborted by the 8000 ms timer, or a response arrives with a status and a
    body ([None] when the body is not JSON, so that [res.json()]
    rejects). *)
Inductive FetchOutcome : Type :=
| NetworkError
| Aborted
| Response (status : Z) (body : option value).

Definition keywordRequired : error :=
  Err "Error" ("scrape: " ++ dquote ++ "keyword" ++ dquote ++ " is required")%string.

Section WithHost.
Context {host : Host}.

(** The query string built by [scrape] once the keyword is accepted. *)
Definition query (keyword page pages : value) : string :=
  let params : URLSearchParams := [] in
  let params := params_set params "keyword" (ToString keyword) in
  let params :=
    if negb (nullish page) then params_set params "page" (ToString page)
    else params in
  let params :=
    if negb (nullish pages) then params_set params "pages" (ToString pages)
    else params in
  params_toString params.

(** [scrape(keyword, page, pages)]: the requests it issues, in order, and
    how its promise settles. *)
Definition scrape (keyword page pages : value) (net : string -> FetchOutcome)
  : list string * result value :=
  if negb (truthy keyword) || negb (truthy (VStr (trim (ToString keyword))))
  then ([], Throw keywordRequired)
  else
    let url := (API_BASE ++ "/scrape?" ++ query keyword page pages)%string in
    ([url],
     match net url with
     | NetworkError => Throw (TypeError "Failed to fetch")
     | Aborted => Throw (Err "AbortError" "The operation was aborted.")
     | Response status body =>
         if negb ((200 <=? status) && (status <=? 299))
         then Throw (Err "Error" ("HTTP " ++ StringZ status)%string)
         else match body with
              | Some json => Ok json
              | None => Throw (Err "SyntaxError" "Unexpected token in JSON")
              end
     end).

End WithHost.

(** A fetch that fails: network error, timeout, or a status outside 2xx. *)
Definition fetchFails (o : FetchOutcome) : bool :=
  match o with
  | NetworkError | Aborted => true
  | Response status _ => negb ((200 <=? status) && (status <=? 299))
  end.

End ApiModel.

(** ** [main.js]: the page controller *)

Module Main.
Import JS DOM ApiModel.

(** Centralized UI/query state. [page] is an integer throughout (it starts
    at 1 and changes by one or to the result of [parseInt]); [pages] is
    [None] when [undefined]. *)
Record ScrapingData : Type := mkData {
  keyword : string ;
  page : Z ;
  pages : option Z ;
  totalPages : Q
}.

Definition scrapingData0 : ScrapingData :=
  {| keyword := "" ; page := 1 ; pages := Some 1 ; totalPages := 1%Q |}.

(** What the handlers read from the document: the two inputs, whether the
    [.info] element exists, and the three regions handed to the builder. *)
Record Document : Type := mkDocument {
  keywordInput_value : string ;
  pageSelect_value : string ;
  infoCard : bool ;
  pagination : option Node ;
  resultsHeader : option Node ;
  resultsContainer : option Node
}.

Inductive InfoContent : Type :=
| InnerHTML (html : string)
| TextContent (text : string).

(** What a handler does to the outside, in order. *)
Inductive Effect : Type :=
| ButtonDisabled (b : bool)
| Request (url : string)
| InfoShow (c : InfoContent)
| InfoHide
| Rendered (b : ResultsUIBuilder.t) (cards : list Node)
| ConsoleError (e : error).

Definition enterKeyword : InfoContent :=
  InnerHTML "<h2 style='color: #000'>Please enter a keyword first.</h2>".

Definition couldNotLoad : InfoContent :=
  TextContent "Could not load results. Please try again.".

(** [infoCard?.classList.remove("hide"); if (infoCard) infoCard... = c]. *)
Definition showInfo (doc : Document) (c : InfoContent) : list Effect :=
  if infoCard doc then [InfoShow c] else [].

(** [infoCard?.classList.add("hide")]. *)
Definition hideInfo (doc : Document) : list Effect :=
  if infoCard doc then [InfoHide] else [].

Definition pagesArg (pages : option Z) : value :=
  match pages with
  | Some n => VNum (ofZ n)
  | None => VUndefined
  end.

Section WithHost.
Context {host : Host}.

(** [updateResultsUI(results)]. *)
Definition updateResultsUI (doc : Document) (st : ScrapingData) (results : value)
  : ResultsUIBuilder.t * result (list Node * option Node) :=
  let b := ResultsUIBuilder.new (resultsHeader doc) (pagination doc)
             (resultsContainer doc) in
  let b := ResultsUIBuilder.setKeyword (VStr (keyword st)) b in
  let b := ResultsUIBuilder.setPage (VNum (ofZ (page st))) b in
  let b := ResultsUIBuilder.setCount
             (coalesce (getOpt results "count") (VNum (Fin 0))) b in
  let b := ResultsUIBuilder.setTotalPages
             (coalesce (getOpt results "totalPages")
                (coalesce (VNum (Fin (totalPages st))) (VNum (Fin 1)))) b in
  let b := ResultsUIBuilder.setProducts
             (coalesce (getOpt results "products") (VArr [])) b in
  let b := ResultsUIBuilder.onPageClick (Some "changePage") b in
  (b, ResultsUIBuilder.build b).

(** The [catch] block shared by both handlers. *)
Definition catch (doc : Document) (e : error) : list Effect :=
  [ConsoleError e] ++ showInfo doc couldNotLoad.

(** [scrapeAmazon()]: the state after the handler has run and what it
    did, given how the network answers. *)
Definition scrapeAmazon (doc : Document) (net : string -> FetchOutcome)
           (st : ScrapingData) : ScrapingData * list Effect :=
  let pagesVal := parseInt (pageSelect_value doc) (Some 10) in
  let keyword := trim (keywordInput_value doc) in
  if negb (truthy (VStr keyword)) then
    (st, showInfo doc enterKeyword)
  else
    (* new search always starts at page 1; a [pagesVal] that is not
       finite is [NaN], stored as [undefined] *)
    let st := mkData keyword 1 pagesVal (totalPages st) in
    (* try *)
    let '(urls, settled) :=
      scrape (VStr (Main.keyword st)) (VNum (ofZ (page st)))
        (pagesArg (pages st)) net in
    let before := [ButtonDisabled true] ++ map Request urls in
    match settled with
    | Ok results =>
        let tp := getOpt results "totalPages" in
        let st := mkData (Main.keyword st) (page st) (pages st)
                    (match tp with VNum (Fin q) => q | _ => 1%Q end) in
        match updateResultsUI doc st results with
        | (b, Ok (cards, _)) =>
            (st, before ++ [Rendered b cards] ++ hideInfo doc
                   ++ [ButtonDisabled false])
        | (_, Throw e) =>
            (st, before ++ catch doc e ++ [ButtonDisabled false])
        end
    | Throw e =>
        (st, before ++ catch doc e ++ [ButtonDisabled false])
    end.

(** The [try] block of [changePage]: fetch the page the state names and
    render it. *)
Definition fetchPage (doc : Document) (net : string -> FetchOutcome)
           (st : ScrapingData) : ScrapingData * list Effect :=
  let '(urls, settled) :=
    scrape (VStr (keyword st)) (VNum (ofZ (page st)))
      (pagesArg (pages st)) net in
  let before := [ButtonDisabled true] ++ map Request urls in
  match settled with
  | Ok results =>
      match updateResultsUI doc st results with
      | (b, Ok (cards, _)) =>
          (st, before ++ [Rendered b cards] ++ [ButtonDisabled false])
      | (_, Throw e) =>
          (st, before ++ catch doc e ++ [ButtonDisabled false])
      end
  | Throw e =>
      (st, before ++ catch doc e ++ [ButtonDisabled false])
  end.

(** The first half of [changePage]: the state to fetch, or [None] when
    the handler returns at once. *)
Definition selectPage (st : ScrapingData) (innerText : string)
  : option ScrapingData :=
  if existsb (fun l => (l =? innerText)%string) ["Prev"; "Next"] then
    let op := innerText in
    if (op =? "Prev")%string && (page st >? 1) then
      Some (mkData (keyword st) (page st - 1) (pages st) (totalPages st))
    else if (op =? "Next")%string
            && Qlt_bool (inject_Z (page st)) (totalPages st) then
      Some (mkData (keyword st) (page st + 1) (pages st) (totalPages st))
    else None
  else
    let clickedIndex := parseInt innerText None in
    (* [NaN] and [null] are both falsy: [None] *)
    let selectedPage :=
      match clickedIndex with
      | Some n => if negb (n =? page st) then Some n else None
      | None => None
      end in
    match selectedPage with
    | Some n =>
        if n =? 0 then None
        else Some (mkData (keyword st) n (pages st) (totalPages st))
    | None => None
    end.

(** [changePage(e)], with [innerText] the text of the clicked item. *)
Definition changePage (doc : Document) (net : string -> FetchOutcome)
           (st : ScrapingData) (innerText : string)
  : ScrapingData * list Effect :=
  match selectPage st innerText with
  | None => (st, [])
  | Some st => fetchPage doc net st
  end.

End WithHost.

(** [scrapingData.page = p]. *)
Definition withPage (st : ScrapingData) (p : Z) : ScrapingData :=
  mkData (keyword st) p (pages st) (totalPages st).

(** [p] is a page of the result set: within [1, totalPages]. *)
Definition withinBounds (st : ScrapingData) (p : Z) : bool :=
  (1 <=? p) && Qle_bool (inject_Z p) (totalPages st).

(** The requests among the effects of a handler. *)
Definition requestsOf (effects : list Effect) : list string :=
  flat_map (fun e => match e with Request url => [url] | _ => [] end) effects.

End Main.

(** ** The pagination window as the specification words it *)

Module WindowSpec.
Import ResultsUIBuilder.

Definition clamp (n lo hi : Z) : Z := Z.max lo (Z.min hi n).

Definition Prev (target : Z) (isDisabled : bool) : Item.t :=
  {| Item.type := Item.typePage; Item.page := Some target; Item.label := Some "Prev";
     Item.current := None; Item.disabled := Some isDisabled |}.

Definition Next (target : Z) (isDisabled : bool) : Item.t :=
  {| Item.type := Item.typePage; Item.page := Some target; Item.label := Some "Next";
     Item.current := None; Item.disabled := Some isDisabled |}.

Definition Page (p : Z) (isCurrent : bool) : Item.t :=
  {| Item.type := Item.typePage; Item.page := Some p; Item.label := Some (JS.StringZ p);
     Item.current := Some isCurrent; Item.disabled := None |}.

Definition Ellipsis : Item.t :=
  {| Item.type := Item.typeEllipsis; Item.page := None; Item.label := None;
     Item.current := None; Item.disabled := None |}.

(** The integers [lo, lo+1, ..., hi] (empty when [hi < lo]). *)
Definition range (lo hi : Z) : list Z :=
  map (fun i => lo + Z.of_nat i) (seq 0 (Z.to_nat (hi + 1 - lo))).

(** Steps 1 to 8 of the specification, in order. *)
Definition computeWindow (current total neighbors : Z) : list Item.t :=
  let start := Z.max 2 (current - neighbors) in
  let end_ := Z.min (total - 1) (current + neighbors) in
  [Prev (clamp (current - 1) 1 total) (current <=? 1)]
    ++ [Page 1 (current =? 1)]
    ++ (if start >? 2 then [Ellipsis] else [])
    ++ map (fun p => Page p (p =? current)) (range start end_)
    ++ (if end_ <? total - 1 then [Ellipsis] else [])
    ++ (if total >? 1 then [Page total (current =? total)] else [])
    ++ [Next (clamp (current + 1) 1 total) (current >=? total)].

(** The target pages of the page items of a list (ellipses carry none). *)
Definition isPageItem (it : Item.t) : bool :=
  match Item.type it with
  | Item.typePage => true
  | Item.typeEllipsis => false
  end.

Definition targets (items : list Item.t) : list Z :=
  flat_map (fun it => if isPageItem it
                      then match Item.page it with Some p => [p] | None => [] end
                      else []) items.

(** The Prev and Next controls are the page items labelled so; the other
    page items are the numbered ones. *)
Definition isNav (it : Item.t) : bool :=
  match Item.label it with
  | Some l => (l =? "Prev")%string || (l =? "Next")%string
  | None => false
  end.

Definition numbered (items : list Item.t) : list Item.t :=
  filter (fun it => isPageItem it && negb (isNav it)) items.

(** How many page items of the list target page [v]. *)
Definition occurrences (v : Z) (items : list Item.t) : nat :=
  count_occ Z.eq_dec (targets items) v.

(** The specification's sentence on repeated targets, read on all the page
    items: a target that occurs twice is an edge value, 1 or [total]. *)
Definition repeatsOnlyEdges (current total : Z) : Prop :=
  forall v : Z,
    (2 <= occurrences v (buildPageList1 current total))%nat ->
    v = 1 \/ v = total.

End WindowSpec.

(** ** Words of the specification about builder state and star icons *)

Module StateSpec.
Import JS.

(** [n >= 1] as JavaScript evaluates it. *)
Definition geOne (n : number) : bool :=
  match n with
  | PInf => true
  | Fin q => Qle_bool 1 q
  | NaN | NInf => false
  end.

Definition isNaN (n : number) : bool :=
  match n with NaN => true | _ => false end.

Definition isString (v : value) : bool :=
  match v with VStr _ => true | _ => false end.

Definition isArray (v : value) : bool :=
  match v with VArr _ => true | _ => false end.

(** The state in which [build()] may run: [page >= 1], [totalPages >= 1],
    [count] is not [NaN], [keyword] is neither [null] nor [undefined]. *)
Definition wellFormed (b : ResultsUIBuilder.t) : Prop :=
  geOne (ResultsUIBuilder.page b) = true
  /\ geOne (ResultsUIBuilder.totalPages b) = true
  /\ isNaN (ResultsUIBuilder.count b) = false
  /\ nullish (ResultsUIBuilder.keyword b) = false.

(** [clamp(r, lo, hi)]. *)
Definition clampQ (r lo hi : Q) : Q := Qmax lo (Qmin hi r).

Definition isInteger (x : Q) : Prop := exists z : Z, x == inject_Z z.

End StateSpec.

(** ** [resultsBuilder.js]: the header, the pagination bar and the star mask *)

Module ResultsUIRender.
Import JS DOM ResultsUIBuilder.

(** The horizontal ellipsis of the bar, U+2026: the one character of the
    code above 255, held as its three UTF-8 bytes. *)
Definition ellipsisText : string :=
  String (ascii_of_N 226) (String (ascii_of_N 128)
    (String (ascii_of_N 166) EmptyString)).

(** [el.getAttribute(name)]. *)
Fixpoint assoc (name : string) (l : list (string * string)) : option string :=
  match l with
  | [] => None
  | (k, v) :: r => if (k =? name)%string then Some v else assoc name r
  end.

Definition getAttribute (name : string) (n : Node) : option string :=
  match n with
  | Element _ _ attrs _ => assoc name attrs
  | Text _ => None
  end.

(** [el.innerText] of an element that holds text only: the text of its
    descendants, in order. *)
Fixpoint innerText (n : Node) : string :=
  match n with
  | Text s => s
  | Element _ _ _ ch =>
      (fix each (l : list Node) : string :=
         match l with
         | [] => EmptyString
         | c :: r => (innerText c ++ each r)%string
         end) ch
  end.

(** [a - b] on numbers. *)
Definition minus (a b : number) : number :=
  match a, b with
  | NaN, _ | _, NaN => NaN
  | PInf, PInf | NInf, NInf => NaN
  | PInf, _ | _, NInf => PInf
  | NInf, _ | _, PInf => NInf
  | Fin x, Fin y => Fin (x - y)
  end.

(** [a >= b] on numbers. *)
Definition ge (a b : number) : bool :=
  match a, b with
  | NaN, _ | _, NaN => false
  | _, _ => negb (lt a b)
  end.

(** [a + b] on numbers. *)
Definition plus (a b : number) : number :=
  match a, b with
  | NaN, _ | _, NaN => NaN
  | PInf, NInf | NInf, PInf => NaN
  | PInf, _ | _, PInf => PInf
  | NInf, _ | _, NInf => NInf
  | Fin x, Fin y => Fin (x + y)
  end.

(** [a <= b] and [a > b] on numbers. *)
Definition le (a b : number) : bool := ge b a.

Definition gt (a b : number) : bool := lt b a.

(** [#buildPageList] on the numbers the builder holds. The setters keep
    every number that is at least 1, an integer or not, and [Infinity]; the
    function itself takes any number. *)
Module Num.

(** The pushed objects, [page] being a number. *)
Record Item : Type := mkItem {
  type : Item.kind ;
  page : option number ;
  label : option string ;
  current : option bool ;
  disabled : option bool
}.

(** What the loop needs to come to its end when it does: one test per
    iteration and the test that fails. From a finite [start] up to a finite
    [end] there are [floor(end - start) + 1] iterations (none when that is
    negative); in every other case either the first test fails or no test
    ever does. *)
Definition loopFuel (start end_ : number) : nat :=
  match start, end_ with
  | Fin s, Fin e => S (Z.to_nat (Qfloor (e - s) + 1))
  | _, _ => 1
  end.

Section WithHost.
Context {host : Host}.

(** [for (let p = start; p <= end; p++) items.push({...})]. [fuel] bounds
    the number of tests of [p <= end]; [None]: the loop has not ended within
    them. *)
Fixpoint windowLoop (fuel : nat) (p end_ current : number) (items : list Item)
  : option (list Item) :=
  match fuel with
  | O => None
  | S fuel' =>
      if le p end_ then
        windowLoop fuel' (plus p (Fin 1)) end_ current
          (push items
             {| type := Item.typePage; page := Some p;
                label := Some (NumberToString p);
                current := Some (strictEq p current); disabled := None |})
      else Some items
  end.

(** [#buildPageList(current, total, neighbors = 1)]; [None] when the call
    does not return, the loop never ending ([loopFuel] is enough for every
    loop that ends: [NumberFacts.loopFuel_enough]). *)
Definition buildPageList (current total : number) (neighbors : number)
  : option (list Item) :=
  let clamp := fun n => Math_max (Fin 1) (Math_min total n) in
  let items := [] in
  (* Prev control *)
  let items :=
    push items {| type := Item.typePage;
                  page := Some (clamp (minus current (Fin 1)));
                  label := Some "Prev"; current := None;
                  disabled := Some (le current (Fin 1)) |} in
  (* Always show page 1 *)
  let items :=
    push items {| type := Item.typePage; page := Some (Fin 1);
                  label := Some "1";
                  current := Some (strictEq current (Fin 1));
                  disabled := None |} in
  (* Window of neighbors around the current page *)
  let start := Math_max (Fin 2) (minus current neighbors) in
  let end_ := Math_min (minus total (Fin 1)) (plus current neighbors) in
  let items :=
    if gt start (Fin 2)
    then push items {| type := Item.typeEllipsis; page := None; label := None;
                       current := None; disabled := None |}
    else items in
  match windowLoop (loopFuel start end_) start end_ current items with
  | None => None
  | Some items =>
      let items :=
        if lt end_ (minus total (Fin 1))
        then push items {| type := Item.typeEllipsis; page := None;
                           label := None; current := None; disabled := None |}
        else items in
      (* Always show last page (if more than one page) *)
      let items :=
        if gt total (Fin 1)
        then push items {| type := Item.typePage; page := Some total;
                           label := Some (NumberToString total);
                           current := Some (strictEq current total);
                           disabled := None |}
        else items in
      (* Next control *)
      let items :=
        push items {| type := Item.typePage;
                      page := Some (clamp (plus current (Fin 1)));
                      label := Some "Next"; current := None;
                      disabled := Some (ge current total) |} in
      Some items
  end.

End WithHost.

End Num.

(** An element of the bar with the click listener attached to it, if any. *)
Record Control : Type := mkControl {
  element : Node ;
  listener : option Handler
}.

(** [if (it.current)] and [if (it.disabled)]: a missing key is falsy. *)
Definition flag (f : option bool) : bool :=
  match f with Some true => true | _ => false end.

Section WithHost.
Context {host : Host}.

(** The body of the loop of [#renderPagination]: one item, one node. *)
Definition renderItem (onClick : option Handler) (it : Num.Item) : Control :=
  match Num.type it with
  | Item.typeEllipsis =>
      (* ellipsis placeholder (non-interactive) *)
      let span := createElement "span" in
      let span := setTextContent ellipsisText span in
      let span := setAttr "aria-hidden" "true" span in
      mkControl span None
  | Item.typePage =>
      (* interactive page item; [el.type = "span"] sets no attribute *)
      let el := createElement "span" in
      let el := setAttr "data-page"
                  (match Num.page it with
                   | Some p => NumberToString p
                   | None => "undefined"
                   end) el in
      let el := setTextContent
                  (match Num.label it with Some l => l | None => EmptyString end)
                  el in
      (* mark current page for styling/ARIA *)
      let el :=
        if flag (Num.current it)
        then classList_add "current" (setAttr "aria-current" "page" el)
        else el in
      if flag (Num.disabled it) then
        let el := setAttr "aria-disabled" "true" el in
        let el := setAttr "style" "pointer-events: none; opacity: 0.6;" el in
        mkControl el None
      else
        (* [else if (this.onClick) el.addEventListener("click", this.onClick)] *)
        mkControl el onClick
  end.

(** [#renderPagination()]: the pagination container after the call and the
    controls appended to it; [None] when the call does not return. *)
Definition renderPagination (b : t) : option (option Node * list Control) :=
  match paginationEl b with
  | None => Some (None, [])
  | Some el =>
      let el := setTextContent "" el in
      match Num.buildPageList (page b) (totalPages b) (Fin 1) with
      | None => None
      | Some items =>
          let controls := map (renderItem (onClick b)) items in
          let el := fold_left (fun e c => appendChild (element c) e) controls el in
          Some (Some (classList_remove "hide" el), controls)
      end
  end.

End WithHost.

(** [#ratingToStars(rating)]: five slots, 1 for a full star, 1/2 for a half
    star, 0 for an empty one. *)
Definition ratingToStars (rating : number) : list Q :=
  let full := Math_floor rating in
  let half := ge (minus rating full) (Fin (1 # 2)) in
  map (fun i : Z =>
         if lt (ofZ i) full then 1%Q
         else if strictEq (ofZ i) full && half then (1 # 2)%Q
         else 0%Q)
      [0; 1; 2; 3; 4].

Section WithHost.
Context {host : Host}.

(** [n.toLocaleString()] for a number [n]. *)
Definition numberLocale (n : number) : string :=
  NumberToLocaleString (match n with Fin q => Fin (Qred q) | _ => n end).

(** The summary of [#renderHeader]:
    [(COUNT product(s) found for "KEYWORD" on page PAGE)]. *)
Definition supText (b : t) : string :=
  let countStr := numberLocale (count b) in
  let kw := ToString (coalesce (keyword b) (VStr "")) in
  ("(" ++ countStr ++ " "
   ++ (if strictEq (count b) (Fin 1) then "product" else "products")
   ++ " found for " ++ dquote ++ kw ++ dquote
   ++ " on page " ++ NumberToString (page b) ++ ")")%string.

(** [#renderHeader()]: the header container after the call ([None] when
    there is none). *)
Definition renderHeader (b : t) : option Node :=
  match headerEl b with
  | None => None
  | Some el =>
      let el := setTextContent "" el in
      let p := createElement "p" in
      let img := createElement "img" in
      let img := setAttr "src" (ToString (iconSrc b)) img in
      let img := setAttr "alt" "shopping-cart" img in
      let sup := createElement "sup" in
      let sup := setTextContent (supText b) sup in
      let p := appendChild img p in
      let p := appendChild (Text (ToString (label b) ++ " ")%string) p in
      let p := appendChild sup p in
      let el := appendChild p el in
      Some (classList_remove "hide" el)
  end.

End WithHost.


End ResultsUIRender.

(** ** What the properties observe of a rendering and of a handler run *)

Module ViewSpec.
Import JS DOM ResultsUIBuilder ResultsUIRender.

(** A class list without [hide]. *)
Definition hideless (cls : list string) : list string :=
  filter (fun d => negb (d =? "hide")%string) cls.

(** What every region does to its container: the children it had are
    dropped, the new ones are appended, the class [hide] is removed. *)
Definition filled (xs : list Node) (el : Node) : Node :=
  match el with
  | Element tag cls attrs _ => Element tag (hideless cls) attrs xs
  | Text s => Text s
  end.

Section WithHost.
Context {host : Host}.

(** The paragraph [#renderHeader] builds; it does not depend on the
    containers. *)
Definition headerParagraph (b : t) : Node :=
  Element "p" [] []
    [ Element "img" [] [("src", ToString (iconSrc b)); ("alt", "shopping-cart")] [];
      Text (ToString (label b) ++ " ")%string;
      Element "sup" [] []
        (if (supText b =? "")%string then [] else [Text (supText b)]) ].

End WithHost.


(** The bounds between which the loop of [#buildPageList] never ends: the
    test [p <= end] holds and [p++] never makes it fail. *)
Definition neverEnds (start end_ : number) : bool :=
  match start, end_ with
  | Fin _, PInf | PInf, PInf => true
  | NInf, Fin _ | NInf, PInf | NInf, NInf => true
  | _, _ => false
  end.

(** An item of the integer page list, as the item on numbers it is. *)
Definition ofItem (it : Item.t) : Num.Item :=
  Num.mkItem (Item.type it) (option_map ofZ (Item.page it)) (Item.label it)
    (Item.current it) (Item.disabled it).

(** An item that renders with a listener: a page item that is not
    disabled. *)
Definition clickable (it : Num.Item) : bool :=
  match Num.type it with
  | Item.typePage => negb (flag (Num.disabled it))
  | Item.typeEllipsis => false
  end.

(** The items marked as the current page. *)
Definition isCurrent (it : Num.Item) : bool := flag (Num.current it).

(** The same on the items of the integer page list. *)
Definition marksCurrent (it : Item.t) : bool := flag (Item.current it).

(** The text an item shows in the bar. *)
Definition itemText (it : Num.Item) : string :=
  match Num.type it with
  | Item.typeEllipsis => ellipsisText
  | Item.typePage =>
      match Num.label it with Some l => l | None => EmptyString end
  end.

(** The characters [URLSearchParams] writes for a name or a value: letters,
    digits, [*-._], [+] for a space and [%] with hexadecimal digits. *)
Definition isQueryChar (c : ascii) : bool :=
  isUrlSafe c || (code c =? 43) || (code c =? 37).

(** How many times a character occurs in a string. *)
Fixpoint countChar (c : ascii) (s : string) : nat :=
  match s with
  | EmptyString => 0%nat
  | String d r => ((if Ascii.eqb d c then 1 else 0) + countChar c r)%nat
  end.

(** The sum of a list of rationals. *)
Definition sumQ (l : list Q) : Q := fold_right Qplus 0%Q l.

(** The successive values given to [scrapeButton.disabled] among the
    effects of a handler. *)
Definition buttonStates (effects : list Main.Effect) : list bool :=
  flat_map (fun e => match e with Main.ButtonDisabled b => [b] | _ => [] end)
    effects.

End ViewSpec.

(* ================================================================== *)
(** * Part II. Properties *)
(* ================================================================== *)

Module PaginationFacts.
Import JS ResultsUIBuilder WindowSpec.

Lemma windowLoop_app fuel : forall p end_ current items,
  windowLoop fuel p end_ current items
  = items ++ windowLoop fuel p end_ current [].
Proof.
  induction fuel as [|fuel IH]; intros p end_ cur items; simpl.
  - now rewrite app_nil_r.
  - destruct (p <=? end_).
    + rewrite IH. rewrite (IH _ _ _ (push [] _)).
      unfold push. now rewrite <- app_assoc.
    + now rewrite app_nil_r.
Qed.

Lemma range_cons lo hi :
  lo <= hi -> range lo hi = lo :: range (lo + 1) hi.
Proof.
  intros Hle. unfold range.
  replace (Z.to_nat (hi + 1 - lo)) with (S (Z.to_nat (hi + 1 - (lo + 1)))) by lia.
  simpl. f_equal; [lia|].
  rewrite <- seq_shift, map_map.
  apply map_ext. intros i. lia.
Qed.

Lemma range_nil lo hi : hi < lo -> range lo hi = [].
Proof.
  intros Hlt. unfold range.
  replace (Z.to_nat (hi + 1 - lo)) with O by lia. reflexivity.
Qed.

(** The loop, run with at least [end - p + 1] units of fuel, stops because
    its test fails and has pushed one numbered item per page of the
    window. *)
Lemma windowLoop_range fuel : forall p end_ current,
  (Z.to_nat (end_ + 1 - p) <= fuel)%nat ->
  windowLoop fuel p end_ current []
  = map (fun q => Page q (q =? current)) (range p end_).
Proof.
  induction fuel as [|fuel IH]; intros p end_ cur Hfuel; simpl.
  - rewrite range_nil by lia. reflexivity.
  - destruct (Z.leb_spec p end_) as [Hle|Hgt].
    + rewrite windowLoop_app, IH by lia.
      rewrite (range_cons p end_) by lia. reflexivity.
    + rewrite range_nil by lia. reflexivity.
Qed.

(** Fuel beyond the length of the window changes nothing: the loop ends on
    its own test. *)
Lemma windowLoop_fuel fuel p end_ current items :
  (Z.to_nat (end_ + 1 - p) <= fuel)%nat ->
  windowLoop fuel p end_ current items
  = windowLoop (Z.to_nat (end_ + 1 - p)) p end_ current items.
Proof.
  intros Hfuel.
  rewrite windowLoop_app, windowLoop_range by exact Hfuel.
  rewrite (windowLoop_app (Z.to_nat _)), windowLoop_range by lia.
  reflexivity.
Qed.

(** The code and the specification's eight steps build the same list, for
    every triple of integers. *)
Lemma buildPageList_computeWindow current total neighbors :
  buildPageList current total neighbors = computeWindow current total neighbors.
Proof.
  unfold buildPageList, computeWindow. cbv zeta.
  set (start := Z.max 2 (current - neighbors)).
  set (end_ := Z.min (total - 1) (current + neighbors)).
  rewrite windowLoop_app, windowLoop_range by lia.
  unfold push, clamp, Prev, Next, Page, Ellipsis.
  destruct (start >? 2), (end_ <? total - 1), (total >? 1); simpl;
    repeat rewrite <- app_assoc; reflexivity.
Qed.

(** C1. For every [total >= 1] and every [current], with [neighbors = 1],
    [#buildPageList] returns exactly the items of the specification's steps
    1 to 8, in that order: Prev (target clamped, disabled iff
    [current <= 1]), page 1, an ellipsis iff the window starts after 2, the
    window pages in increasing order, an ellipsis iff the window ends before
    [total - 1], page [total] iff [total > 1], and Next (target clamped,
    disabled iff [current >= total]). *)
Theorem buildPageList_order (current total : Z) :
  1 <= total ->
  buildPageList current total 1 =
    [Prev (clamp (current - 1) 1 total) (current <=? 1)]
      ++ [Page 1 (current =? 1)]
      ++ (if Z.max 2 (current - 1) >? 2 then [Ellipsis] else [])
      ++ map (fun p => Page p (p =? current))
           (range (Z.max 2 (current - 1)) (Z.min (total - 1) (current + 1)))
      ++ (if Z.min (total - 1) (current + 1) <? total - 1 then [Ellipsis] else [])
      ++ (if total >? 1 then [Page total (current =? total)] else [])
      ++ [Next (clamp (current + 1) 1 total) (current >=? total)].
Proof.
  intros _. rewrite buildPageList_computeWindow. reflexivity.
Qed.

Lemma buildPageList_order_witness :
  1 <= 10 /\
  buildPageList 7 10 1 =
    [Prev 6 false; Page 1 false; Ellipsis; Page 6 false; Page 7 true;
     Page 8 false; Ellipsis; Page 10 false; Next 8 false].
Proof.
  split; [lia | exact (buildPageList_order 7 10 ltac:(lia))].
Defined.

(** C3. The three worked inputs of the specification. *)
Theorem buildPageList_examples :
  buildPageList1 1 1 =
    [ {| Item.type := Item.typePage; Item.page := Some 1;
         Item.label := Some "Prev"; Item.current := None;
         Item.disabled := Some true |};
      {| Item.type := Item.typePage; Item.page := Some 1;
         Item.label := Some "1"; Item.current := Some true;
         Item.disabled := None |};
      {| Item.type := Item.typePage; Item.page := Some 1;
         Item.label := Some "Next"; Item.current := None;
         Item.disabled := Some true |} ]
  /\ buildPageList 5 10 1 =
       [Prev 4 false; Page 1 false; Ellipsis; Page 4 false; Page 5 true;
        Page 6 false; Ellipsis; Page 10 false; Next 6 false]
  /\ map Item.label (buildPageList 5 10 1) =
       [Some "Prev"; Some "1"; None; Some "4"; Some "5"; Some "6"; None;
        Some "10"; Some "Next"]
  /\ buildPageList 1 10 1 =
       [Prev 1 true; Page 1 true; Page 2 false; Ellipsis; Page 10 false;
        Next 2 false]
  /\ map Item.label (buildPageList 1 10 1) =
       [Some "Prev"; Some "1"; Some "2"; None; Some "10"; Some "Next"].
Proof.
  repeat split; vm_compute; reflexivity.
Qed.

(** *** Targets of the window *)

Lemma In_range lo hi v : In v (range lo hi) <-> lo <= v <= hi.
Proof.
  unfold range. rewrite in_map_iff. split.
  - intros (i & <- & Hi). apply in_seq in Hi. lia.
  - intros Hv. exists (Z.to_nat (v - lo)). split; [lia|].
    apply in_seq. lia.
Qed.

Lemma NoDup_range lo hi : NoDup (range lo hi).
Proof.
  unfold range. apply Injective_map_NoDup; [|apply seq_NoDup].
  intros i j Hij. lia.
Qed.

(** A decimal numeral is never the label of a control. *)
Lemma StringZ_not_nav p b : isNav (Page p b) = false.
Proof.
  unfold isNav, Page, JS.StringZ. simpl.
  destruct (Z.to_int p) as [d|d]; [destruct d|]; reflexivity.
Qed.

Lemma targets_app l1 l2 : targets (l1 ++ l2) = targets l1 ++ targets l2.
Proof. apply flat_map_app. Qed.

Lemma numbered_app l1 l2 : numbered (l1 ++ l2) = numbered l1 ++ numbered l2.
Proof. apply filter_app. Qed.

Lemma numbered_pages (f : Z -> bool) l :
  numbered (map (fun p => Page p (f p)) l) = map (fun p => Page p (f p)) l.
Proof.
  induction l as [|p l IH]; [reflexivity|].
  unfold numbered in *. simpl. rewrite StringZ_not_nav. simpl. now rewrite IH.
Qed.

Lemma targets_pages (f : Z -> bool) l :
  targets (map (fun p => Page p (f p)) l) = l.
Proof.
  induction l as [|p l IH]; [reflexivity|].
  unfold targets in *. simpl. now rewrite IH.
Qed.

Lemma numbered_page p b : numbered [Page p b] = [Page p b].
Proof. unfold numbered. simpl. now rewrite StringZ_not_nav. Qed.

(** The numbered items of the window target 1, then the window's pages,
    then [total] when there is more than one page. *)
Lemma numbered_targets current total neighbors :
  targets (numbered (buildPageList current total neighbors)) =
    1 :: range (Z.max 2 (current - neighbors))
           (Z.min (total - 1) (current + neighbors))
      ++ (if total >? 1 then [total] else []).
Proof.
  rewrite buildPageList_computeWindow. unfold computeWindow. cbv zeta.
  repeat rewrite numbered_app. rewrite numbered_pages.
  repeat rewrite targets_app. rewrite targets_pages.
  destruct (Z.max 2 (current - neighbors) >? 2),
    (Z.min (total - 1) (current + neighbors) <? total - 1),
    (total >? 1); rewrite ?numbered_page; reflexivity.
Qed.

(** All the page items: Prev, the numbered ones, Next. *)
Lemma all_targets current total neighbors :
  targets (buildPageList current total neighbors) =
    clamp (current - 1) 1 total
      :: targets (numbered (buildPageList current total neighbors))
      ++ [clamp (current + 1) 1 total].
Proof.
  rewrite numbered_targets, buildPageList_computeWindow.
  unfold computeWindow. cbv zeta.
  repeat rewrite targets_app. rewrite targets_pages.
  destruct (Z.max 2 (current - neighbors) >? 2),
    (Z.min (total - 1) (current + neighbors) <? total - 1),
    (total >? 1); simpl; repeat rewrite <- app_assoc; reflexivity.
Qed.

Lemma NoDup_numbered_targets current total neighbors :
  NoDup (targets (numbered (buildPageList current total neighbors))).
Proof.
  rewrite numbered_targets. constructor.
  - rewrite in_app_iff, In_range.
    destruct (Z.gtb_spec total 1); simpl; lia.
  - apply NoDup_app; [apply NoDup_range| |].
    + destruct (total >? 1); repeat constructor; simpl; tauto.
    + intros v Hv. apply In_range in Hv.
      destruct (total >? 1); simpl; lia.
Qed.

(** C2, the claim as stated fails: on page 5 of 10 the target 4 occurs
    twice among the page items (Prev and the numbered item 4), and 4 is
    not an edge value. *)
Lemma repeats_inside_window :
  occurrences 4 (buildPageList1 5 10) = 2%nat /\ 4 <> 1 /\ 4 <> 10
  /\ ~ repeatsOnlyEdges 5 10.
Proof.
  split; [reflexivity|]. split; [lia|]. split; [lia|].
  intros H. specialize (H 4). 
  assert (Hocc : (2 <= occurrences 4 (buildPageList1 5 10))%nat)
    by (vm_compute; lia).
  destruct (H Hocc); lia.
Qed.

(** C2, amended. For [total >= 1] and [current] in [1, total]: among the
    numbered page items (those other than Prev and Next) exactly one
    targets page 1, exactly one targets [total] when [total > 1], and no
    target occurs twice; the page items are Prev, the numbered items and
    Next, so a target repeats only through Prev or Next, whose clamped
    targets are each the target of a numbered item (an edge or a window
    page). *)
Theorem window_targets (current total : Z) :
  1 <= total -> 1 <= current <= total ->
  let items := buildPageList1 current total in
  let nums := targets (numbered items) in
  count_occ Z.eq_dec nums 1 = 1%nat
  /\ (total > 1 -> count_occ Z.eq_dec nums total = 1%nat)
  /\ NoDup nums
  /\ targets items
     = clamp (current - 1) 1 total :: nums ++ [clamp (current + 1) 1 total]
  /\ In (clamp (current - 1) 1 total) nums
  /\ In (clamp (current + 1) 1 total) nums.
Proof.
  intros Htotal Hcur items nums.
  assert (Hnd : NoDup nums) by apply NoDup_numbered_targets.
  assert (Hnums : nums = 1 :: range (Z.max 2 (current - 1))
                                (Z.min (total - 1) (current + 1))
                           ++ (if total >? 1 then [total] else []))
    by apply numbered_targets.
  assert (Hin : forall v, In v nums <->
                  v = 1 \/ (Z.max 2 (current - 1) <= v
                            <= Z.min (total - 1) (current + 1))
                  \/ (total > 1 /\ v = total)).
  { intros v. rewrite Hnums. simpl. rewrite in_app_iff, In_range.
    destruct (Z.gtb_spec total 1); simpl; intuition lia. }
  pose proof (proj1 (NoDup_count_occ' Z.eq_dec nums) Hnd) as Hone.
  repeat split.
  - apply Hone, Hin. lia.
  - intros Hgt. apply Hone, Hin. lia.
  - exact Hnd.
  - apply all_targets.
  - apply Hin. unfold clamp. lia.
  - apply Hin. unfold clamp. lia.
Qed.

Lemma window_targets_witness :
  1 <= 10 /\ 1 <= 5 <= 10 /\
  targets (buildPageList1 5 10) = [4; 1; 4; 5; 6; 10; 6].
Proof.
  split; [lia|]. split; [lia|].
  exact (proj1 (proj2 (proj2 (proj2
           (window_targets 5 10 ltac:(lia) ltac:(lia)))))).
Defined.

End PaginationFacts.

(** ** The builders' setters *)

Module BuilderFacts.
Import JS StateSpec.

Lemma Qle_bool_false a b : Qle_bool a b = false -> (b < a)%Q.
Proof.
  intros H. apply Qnot_le_lt. intros Hle.
  apply Qle_bool_iff in Hle. congruence.
Qed.

Lemma Qlt_bool_true a b : Qlt_bool a b = true <-> (a < b)%Q.
Proof.
  unfold Qlt_bool. split.
  - intros H. apply Qle_bool_false.
    now destruct (Qle_bool b a).
  - intros H. destruct (Qle_bool b a) eqn:E; [|reflexivity].
    apply Qle_bool_iff in E. exfalso. exact (Qlt_not_le _ _ H E).
Qed.

(** [Math.max(1, x || 1)]: [x] when [x >= 1], and 1 for every other number,
    [NaN] included. *)
Lemma max1_or1 (n : number) :
  Math_max (Fin 1) (numOr n (Fin 1)) = if geOne n then n else Fin 1.
Proof.
  destruct n as [| | |q]; try reflexivity.
  unfold numOr, truthy, isZero, geOne.
  destruct (Qeq_bool q 0) eqn:E0; simpl.
  - apply Qeq_bool_eq in E0.
    assert (Hq : Qle_bool 1 q = false).
    { destruct (Qle_bool 1 q) eqn:E; [|reflexivity].
      apply Qle_bool_iff in E. rewrite E0 in E.
      unfold Qle in E. simpl in E. lia. }
    now rewrite Hq.
  - now destruct (Qle_bool 1 q).
Qed.

Lemma geOne_max1_or1 (n : number) :
  geOne (Math_max (Fin 1) (numOr n (Fin 1))) = true.
Proof.
  rewrite max1_or1. destruct (geOne n) eqn:E; [exact E | reflexivity].
Qed.

Lemma numOr_not_NaN (n : number) (q : Q) : isNaN (numOr n (Fin q)) = false.
Proof.
  destruct n as [| | |x]; try reflexivity.
  unfold numOr. now destruct (truthy (VNum (Fin x))).
Qed.

Lemma coalesce_not_nullish (v : value) (s : string) :
  nullish (coalesce v (VStr s)) = false.
Proof. now destruct v. Qed.

Section WithHost.
Context {host : Host}.
Import ResultsUIBuilder.

Lemma call_wellFormed (b : t) (c : Call) :
  wellFormed b -> wellFormed (call b c).
Proof.
  intros (Hp & Ht & Hc & Hk).
  destruct c; unfold wellFormed, call, setIcon, setLabel, setKeyword,
    setCount, setPage, setProducts, setTotalPages, setResultsEl, onPageClick;
    cbn [page totalPages count keyword]; repeat split;
    auto using geOne_max1_or1, numOr_not_NaN, coalesce_not_nullish.
Qed.

Lemma fold_wellFormed (calls : list Call) : forall b,
  wellFormed b -> wellFormed (fold_left call calls b).
Proof.
  induction calls as [|c calls IH]; intros b Hb; simpl; [exact Hb|].
  apply IH, call_wellFormed, Hb.
Qed.

End WithHost.

(** C9, the claim as stated fails: [setCount(Infinity)] stores a count
    that is not finite, and [setKeyword(42)] stores a keyword that is not a
    string. *)
Lemma setters_keep_infinity_and_numbers :
  let b := ResultsUIBuilder.new None None None in
  ResultsUIBuilder.count (ResultsUIBuilder.setCount (host := exampleHost) (VNum PInf) b)
    = PInf
  /\ isFiniteNumber PInf = false
  /\ ResultsUIBuilder.keyword (ResultsUIBuilder.setKeyword (VNum (ofZ 42)) b)
     = VNum (ofZ 42)
  /\ isString (VNum (ofZ 42)) = false.
Proof. repeat split. Qed.

(** C9, amended. Every fluent setter normalizes its input: after
    [setPage(p)] the page is [Number(p)] when that is at least 1 and 1
    otherwise (non-numeric, zero or negative input becomes 1); likewise
    [setTotalPages]; after [setCount(n)] the count is never [NaN]
    (non-numeric input becomes 0; an infinite input is kept); after
    [setProducts(p)] the products are the elements of [p] when it is an
    array and the empty array otherwise; after [setKeyword(kw)] the keyword
    is never [null] or [undefined] ([null] and [undefined] become the empty
    string, any other value is kept as it is, string or not). Hence, after
    any chain of setters on a new builder, [build()] runs with
    [page >= 1], [totalPages >= 1], a count that is not [NaN] and a keyword
    that is not nullish. *)
Theorem setters_normalize (host : Host) (b : ResultsUIBuilder.t) (v : value) :
  (ResultsUIBuilder.page (ResultsUIBuilder.setPage v b)
   = (if geOne (ToNumber v) then ToNumber v else Fin 1)
   /\ geOne (ResultsUIBuilder.page (ResultsUIBuilder.setPage v b)) = true)
  /\ (ResultsUIBuilder.totalPages (ResultsUIBuilder.setTotalPages v b)
      = (if geOne (ToNumber v) then ToNumber v else Fin 1)
      /\ geOne (ResultsUIBuilder.totalPages (ResultsUIBuilder.setTotalPages v b))
         = true)
  /\ (isNaN (ResultsUIBuilder.count (ResultsUIBuilder.setCount v b)) = false
      /\ ResultsUIBuilder.count (ResultsUIBuilder.setCount v b)
         = (if isNaN (ToNumber v) then Fin 0
            else if strictEq (ToNumber v) (Fin 0) then Fin 0
            else ToNumber v))
  /\ ResultsUIBuilder.products (ResultsUIBuilder.setProducts v b)
     = (match v with VArr elems => elems | _ => [] end)
  /\ (nullish (ResultsUIBuilder.keyword (ResultsUIBuilder.setKeyword v b)) = false
      /\ ResultsUIBuilder.keyword (ResultsUIBuilder.setKeyword v b)
         = (if nullish v then VStr "" else v))
  /\ (forall (h p r : option DOM.Node) (calls : list ResultsUIBuilder.Call),
        wellFormed (ResultsUIBuilder.chain h p r calls)).
Proof.
  repeat split.
  - apply max1_or1.
  - apply geOne_max1_or1.
  - apply max1_or1.
  - apply geOne_max1_or1.
  - apply numOr_not_NaN.
  - simpl. destruct (ToNumber v) as [| | |q]; try reflexivity.
    unfold numOr, truthy, isZero. simpl.
    now destruct (Qeq_bool q 0).
  - simpl. now destruct v.
  - apply fold_wellFormed. now repeat split.
  - apply fold_wellFormed. now repeat split.
  - apply fold_wellFormed. now repeat split.
  - apply fold_wellFormed. now repeat split.
Qed.

End BuilderFacts.

(** ** [CardBuilder.setStars] *)

Module StarsFacts.
Import JS StateSpec CardBuilder.

(** [Math.min(5, Math.max(0, rating))] is [clamp(rating, 0, 5)]. *)
Lemma clamp_code (q : Q) :
  exists r : Q,
    Math_min (Fin 5) (Math_max (Fin 0) (Fin q)) = Fin r
    /\ (r == clampQ q 0 5)%Q.
Proof.
  unfold clampQ, Math_max, Math_min.
  destruct (Qle_bool 0 q) eqn:E0.
  - apply Qle_bool_iff in E0.
    destruct (Qle_bool 5 q) eqn:E5; eexists; (split; [reflexivity|]).
    + apply Qle_bool_iff in E5.
      rewrite (Q.min_l 5 q E5). now rewrite Q.max_r.
    + apply BuilderFacts.Qle_bool_false in E5. apply Qlt_le_weak in E5.
      rewrite (Q.min_r 5 q E5). now rewrite Q.max_r.
  - apply BuilderFacts.Qle_bool_false in E0. apply Qlt_le_weak in E0.
    destruct (Qle_bool 5 0) eqn:E5; [discriminate E5|].
    eexists; split; [reflexivity|].
    rewrite (Q.min_r 5 q) by (apply Qle_trans with 0%Q; [exact E0 | discriminate]).
    now rewrite Q.max_l.
Qed.

Lemma clampQ_le_5 (q : Q) : (clampQ q 0 5 <= 5)%Q.
Proof.
  unfold clampQ. apply Q.max_lub; [discriminate | apply Q.le_min_l].
Qed.

Lemma isInteger_floor (r : Q) :
  isInteger r <-> Qeq_bool r (inject_Z (Qfloor r)) = true.
Proof.
  split.
  - intros (z & Hz). apply Qeq_eq_bool.
    rewrite (Qfloor_comp _ _ Hz), Qfloor_Z. exact Hz.
  - intros H. exists (Qfloor r). now apply Qeq_bool_eq.
Qed.

(** The half star of the code: [r < 5 && r !== Math.floor(r)], for a rating
    already clamped, says that [r] is not an integer. *)
Lemma hasHalf_iff (r : Q) :
  (r <= 5)%Q ->
  (Qlt_bool r 5 && negb (Qeq_bool r (inject_Z (Qfloor r))) = true
   <-> ~ isInteger r).
Proof.
  intros Hle. rewrite isInteger_floor, andb_true_iff, negb_true_iff. split.
  - intros (_ & Hne). congruence.
  - intros Hni. split.
    + apply BuilderFacts.Qlt_bool_true. apply Qle_lteq in Hle.
      destruct Hle as [Hlt|Heq]; [exact Hlt|].
      exfalso. apply Hni. apply Qeq_eq_bool.
      rewrite (Qfloor_comp _ _ Heq). exact Heq.
    + now destruct (Qeq_bool r (inject_Z (Qfloor r))).
Qed.

(** C10. [setStars(arg)]: an array is stored verbatim; otherwise, when
    [Number(arg)] is a finite number [r], the icons are exactly
    [floor(clamp(r, 0, 5))] full stars followed by exactly one half star if
    and only if [clamp(r, 0, 5)] is not an integer; and when [Number(arg)]
    is not finite the icon list is cleared. *)
Theorem setStars_icons (host : Host) (b : CardBuilder.t) (arg : value) :
  match arg with
  | VArr elems => stars (setStars arg b) = elems
  | _ =>
      match ToNumber arg with
      | Fin q =>
          let r := clampQ q 0 5 in
          exists half : list value,
            stars (setStars arg b)
            = repeat (VStr _FULL) (Z.to_nat (Qfloor r)) ++ half
            /\ ((~ isInteger r /\ half = [VStr _HALF])
                \/ (isInteger r /\ half = []))
      | _ => stars (setStars arg b) = []
      end
  end.
Proof.
  assert (Hnum : forall v, isArray v = false ->
            match ToNumber v with
            | Fin q =>
                let r := clampQ q 0 5 in
                exists half : list value,
                  stars (setStars v b)
                  = repeat (VStr _FULL) (Z.to_nat (Qfloor r)) ++ half
                  /\ ((~ isInteger r /\ half = [VStr _HALF])
                      \/ (isInteger r /\ half = []))
            | _ => stars (setStars v b) = []
            end).
  { intros v Hv.
    assert (Hset : setStars v b =
              match ToNumber v with
              | Fin q =>
                  let r := Math_min (Fin 5) (Math_max (Fin 0) (Fin q)) in
                  let full := Math_floor r in
                  let icons := Array_fill full (VStr _FULL) in
                  withStars
                    (if lt r (Fin 5) && negb (strictEq r full)
                     then push icons (VStr _HALF) else icons)
                    (setRating (VNum (Fin q)) b)
              | _ => withStars [] b
              end).
    { unfold setStars. destruct v; try discriminate Hv;
        destruct (ToNumber _); reflexivity. }
    rewrite Hset. clear Hset.
    destruct (ToNumber v) as [| | |q]; try reflexivity.
    cbv zeta. destruct (clamp_code q) as (r & -> & Hr).
    cbn [Math_floor Array_fill lt strictEq withStars stars].
    rewrite Qfloor_Z, <- (Qfloor_comp _ _ Hr).
    pose proof (clampQ_le_5 q) as Hle. rewrite <- Hr in Hle.
    pose proof (hasHalf_iff r Hle) as Hhalf.
    assert (Hint : isInteger r <-> isInteger (clampQ q 0 5)).
    { unfold isInteger. split; intros (z & Hz); exists z.
      - now rewrite <- Hr.
      - now rewrite Hr. }
    destruct (Qlt_bool r 5 && negb (Qeq_bool r (inject_Z (Qfloor r)))) eqn:E.
    - exists [VStr _HALF]. split; [reflexivity|]. left. split; [|reflexivity].
      rewrite <- Hint. now apply Hhalf.
    - exists []. split; [now rewrite app_nil_r|]. right. split; [|reflexivity].
      apply Hint. apply isInteger_floor.
      destruct (Qeq_bool r (inject_Z (Qfloor r))) eqn:Eq; [reflexivity|].
      exfalso. assert (Hn : ~ isInteger r).
      { intros Hi. apply isInteger_floor in Hi. congruence. }
      apply Hhalf in Hn. congruence. }
  destruct arg; try (apply Hnum; reflexivity).
  reflexivity.
Qed.

(** Worked ratings: four and a half, five, zero, a negative rating, and two
    arguments whose number is not finite. *)
Lemma setStars_examples :
  stars (setStars (host := exampleHost) (VNum (Fin (9 # 2))) new)
  = [VStr _FULL; VStr _FULL; VStr _FULL; VStr _FULL; VStr _HALF]
  /\ stars (setStars (host := exampleHost) (VNum (Fin 5)) new)
     = repeat (VStr _FULL) 5
  /\ stars (setStars (host := exampleHost) (VNum (Fin 0)) new) = []
  /\ stars (setStars (host := exampleHost) (VNum (Fin (-3))) new) = []
  /\ stars (setStars (host := exampleHost) (VNum PInf) new) = []
  /\ stars (setStars (host := exampleHost) VUndefined new) = [].
Proof. repeat split. Qed.

End StarsFacts.

(** ** Cards and ratings *)

Module CardFacts.
Import JS DOM CardBuilder.

(** Closes a goal that looks for a block among the children of a card,
    given that the third and the fourth child are the blocks. *)
Ltac block_found Hs Hr :=
  cbn; rewrite ?Hs, ?Hr, ?orb_true_r; reflexivity.

(** A builder whose [rating] is not nullish and whose star list is empty
    builds a card with both halves of the rating block, whatever the other
    fields hold. *)
Lemma build_with_rating (host : Host) (b : CardBuilder.t) (n : number) :
  nullish (rating b) = false -> stars b = [] -> reviewCount b = VNum n ->
  exists img desc score reviews rest,
    build b = Ok (Element "div" ["card"] []
                    (img :: desc :: score :: reviews :: rest))
    /\ tagOf img = "img"
    /\ isBlock "score" score = true
    /\ isBlock "reviews" reviews = true.
Proof.
  intros Hr Hs Hc. unfold build. rewrite Hr, Hs, Hc. cbn.
  do 5 eexists. split; [reflexivity|]. repeat split.
Qed.

(** C4, on the code. A product whose [rating] is absent ([undefined] or
    [null]) is still rendered with the rating block: the card has the
    [score] division and the [reviews] division. The constructor of
    [CardBuilder] sets [rating] to 0 and [#renderCards] never resets it, so
    the test [this.rating != null] in [build()] always passes. *)
Theorem absent_rating_still_rendered (host : Host)
        (props : list (string * value)) :
  nullish (lookup "rating" props) = true ->
  exists card : Node,
    ResultsUIBuilder.renderCard (VObj props) = Ok card
    /\ hasScoreBlock card = true
    /\ hasReviewsBlock card = true
    /\ hasRatingBlock card = true.
Proof.
  intros Habsent. unfold ResultsUIBuilder.renderCard.
  cbn [get bind]. rewrite Habsent. cbn [negb].
  match goal with
  | |- context [build ?b] =>
      destruct (build_with_rating host b
                  (ToNumber (coalesce (lookup "reviews" props) (VNum (Fin 0))))
                  eq_refl eq_refl eq_refl)
        as (img & desc & score & reviews & rest & -> & Himg & Hs & Hr)
  end.
  cbn [bind].
  eexists. split; [reflexivity|].
  assert (H : forall card,
             hasScoreBlock card = true -> hasReviewsBlock card = true ->
             hasScoreBlock card = true /\ hasReviewsBlock card = true
             /\ hasRatingBlock card = true).
  { intros card H1 H2. unfold hasRatingBlock. now rewrite H1, H2. }
  destruct img as [tag cls attrs ch|]; simpl in Himg; [subst tag|discriminate].
  apply H; destruct (truthy (lookup "title" props)); block_found Hs Hr.
Qed.

(** The failing input: a product with a title and a review count and no
    rating. *)
Lemma absent_rating_still_rendered_witness :
  nullish (lookup "rating" [("title", VStr "Mouse"); ("reviews", VNum (ofZ 12))])
  = true
  /\ exists card : Node,
       ResultsUIBuilder.renderCard (host := exampleHost)
         (VObj [("title", VStr "Mouse"); ("reviews", VNum (ofZ 12))])
       = Ok card
       /\ hasScoreBlock card = true
       /\ hasReviewsBlock card = true
       /\ hasRatingBlock card = true.
Proof.
  split; [reflexivity|].
  exact (absent_rating_still_rendered exampleHost
           [("title", VStr "Mouse"); ("reviews", VNum (ofZ 12))] eq_refl).
Defined.

(** What the card of that product is, in full: the [score] division shows
    the text (0) with no star. *)
Lemma absent_rating_card :
  ResultsUIBuilder.renderCard (host := exampleHost)
    (VObj [("title", VStr "Mouse"); ("reviews", VNum (ofZ 12))])
  = Ok (Element "div" ["card"] [("data-asin", "")]
          [ Element "img" [] [("src", "./example.jpg"); ("alt", "Mouse")] [];
            Element "p" [] [] [Text "Mouse"];
            Element "div" ["score"] [] [Element "span" [] [] [Text "(0)"]];
            Element "div" ["reviews"] []
              [ Element "img" []
                  [("src", "./message-bubble.svg"); ("alt", "message-bubble")] [];
                Element "span" [] [] [Text "12"];
                Element "span" [] [] [Text "reviews"] ];
            Element "hr" [] [] [];
            Element "a" [] [("href", "#"); ("target", "_blank")]
              [ Element "img" [] [("src", "./link.svg"); ("alt", "link-icon")] [];
                Text " View on Amazon" ] ]).
Proof. vm_compute. reflexivity. Qed.

(** [build()] itself omits the block when the builder's rating is [null]:
    the guard is there, the caller never reaches it. *)
Lemma build_null_rating (host : Host) (b : CardBuilder.t) :
  nullish (rating b) = true ->
  exists card, build b = Ok card /\ hasRatingBlock card = false.
Proof.
  intros Hr. unfold build. rewrite Hr. cbn.
  eexists. split; reflexivity.
Qed.

(** A rating of 0 is a rating: the block is rendered. *)
Lemma zero_rating_rendered (host : Host) (props : list (string * value)) :
  lookup "rating" props = VNum (Fin 0) ->
  exists card : Node,
    ResultsUIBuilder.renderCard (VObj props) = Ok card
    /\ hasScoreBlock card = true
    /\ hasReviewsBlock card = true.
Proof.
  intros Hzero. unfold ResultsUIBuilder.renderCard.
  cbn [get bind]. rewrite Hzero. cbn [negb nullish].
  match goal with
  | |- context [build ?b] =>
      destruct (build_with_rating host b
                  (ToNumber (coalesce (lookup "reviews" props) (VNum (Fin 0))))
                  eq_refl eq_refl eq_refl)
        as (img & desc & score & reviews & rest & -> & Himg & Hs & Hr)
  end.
  cbn [bind].
  eexists. split; [reflexivity|].
  destruct img as [tag cls attrs ch|]; simpl in Himg; [subst tag|discriminate].
  split; destruct (truthy (lookup "title" props)); block_found Hs Hr.
Qed.

End CardFacts.

(** ** The fetch client *)

Module ApiFacts.
Import JS StateSpec ApiModel.

Lemma append_assoc (a b c : string) : ((a ++ b) ++ c = a ++ (b ++ c))%string.
Proof. induction a as [|x a IH]; simpl; [reflexivity | now rewrite IH]. Qed.

Lemma append_nil_r (a : string) : (a ++ "")%string = a.
Proof. induction a as [|x a IH]; simpl; [reflexivity | now rewrite IH]. Qed.

(** *** Blank strings *)

Lemma trimStart_blank s : trimStart s = "" <-> blank s = true.
Proof.
  unfold blank. induction s as [|c s IH]; simpl; [tauto|].
  destruct (isWhiteSpace c); simpl; [exact IH|].
  split; discriminate.
Qed.

Lemma blank_trimStart s : blank (trimStart s) = blank s.
Proof.
  unfold blank. induction s as [|c s IH]; simpl; [reflexivity|].
  destruct (isWhiteSpace c) eqn:E; simpl; [exact IH | now rewrite E].
Qed.

Lemma trimEnd_blank s : trimEnd s = "" <-> blank s = true.
Proof.
  unfold blank. induction s as [|c s IH]; simpl; [tauto|].
  destruct (isWhiteSpace c); simpl.
  - destruct (String.eqb_spec (trimEnd s) "") as [E|E].
    + tauto.
    + split; [discriminate|]. intros H. apply IH in H. contradiction.
  - split; discriminate.
Qed.

(** A string trims to the empty string exactly when it is blank. *)
Lemma trim_blank s : trim s = "" <-> blank s = true.
Proof.
  unfold trim. rewrite trimEnd_blank, blank_trimStart. tauto.
Qed.

(** *** Rejected and accepted keywords *)

Section WithHost.
Context {host : Host}.

Lemma scrape_rejects keyword page pages net :
  trim (ToString keyword) = "" ->
  scrape keyword page pages net = ([], Throw keywordRequired).
Proof.
  intros H. unfold scrape. rewrite H. simpl.
  now rewrite orb_true_r.
Qed.

Lemma scrape_accepts keyword page pages net :
  truthy keyword = true -> trim (ToString keyword) <> "" ->
  fst (scrape keyword page pages net)
  = [(API_BASE ++ "/scrape?" ++ query keyword page pages)%string].
Proof.
  intros Ht Hne. unfold scrape. rewrite Ht.
  apply String.eqb_neq in Hne. simpl. rewrite Hne. reflexivity.
Qed.

Lemma truthy_of_trim (s : string) : trim s <> "" -> truthy (VStr s) = true.
Proof.
  intros H. destruct s; [now elim H | reflexivity].
Qed.

(** The query string, pair by pair. *)
Lemma query_shape keyword page pages :
  query keyword page pages
  = ("keyword=" ++ urlencode (ToString keyword)
     ++ (if nullish page then "" else "&page=" ++ urlencode (ToString page))
     ++ (if nullish pages then "" else "&pages=" ++ urlencode (ToString pages)))%string.
Proof.
  unfold query, params_toString.
  destruct (nullish page), (nullish pages); cbn;
    rewrite ?append_assoc, ?append_nil_r; cbn; reflexivity.
Qed.

(** An integer is sent as its decimal numeral. *)
Lemma ToString_integer (n : Z) : ToString (VNum (ofZ n)) = StringZ n.
Proof.
  unfold ofZ. cbn [ToString NumberToString]. unfold isIntegral.
  rewrite Qfloor_Z, Qeq_bool_refl. reflexivity.
Qed.

End WithHost.

Lemma urlencode_uint (d : Decimal.uint) :
  urlencode (NilEmpty.string_of_uint d) = NilEmpty.string_of_uint d.
Proof.
  induction d; simpl; try rewrite IHd; reflexivity.
Qed.

(** A decimal numeral passes through the encoding unchanged. *)
Lemma urlencode_StringZ (n : Z) : urlencode (StringZ n) = StringZ n.
Proof.
  unfold StringZ. destruct (Z.to_int n) as [d|d]; simpl.
  - destruct d; simpl; rewrite ?urlencode_uint; reflexivity.
  - change (encodeUnit "-") with "-". simpl. f_equal.
    destruct d; simpl; rewrite ?urlencode_uint; reflexivity.
Qed.

(** C8, the claim as stated fails: a page that is [NaN] and a page count
    that is [Infinity] are not finite and are sent all the same. *)
Lemma non_finite_arguments_are_sent :
  Number_isFinite (VNum NaN) = false
  /\ Number_isFinite (VNum PInf) = false
  /\ fst (scrape (host := exampleHost) (VStr "laptop") (VNum NaN) (VNum PInf)
            (fun _ => NetworkError))
     = ["http://localhost:8081/api/scrape?keyword=laptop&page=NaN&pages=Infinity"].
Proof. repeat split. Qed.

(** C8, amended. A fetch issued for an accepted keyword requests
    [API_BASE/scrape?] followed by [keyword=] and the url-encoded keyword;
    [page] and [pages] are left out exactly when the argument is [null] or
    [undefined], and any other argument is sent as [String(argument)],
    url-encoded: the decimal numeral for an integer, and [NaN] or
    [Infinity] for a number that is not finite. *)
Theorem query_parameters (host : Host) (keyword page pages : value)
        (net : string -> FetchOutcome) :
  truthy keyword = true -> trim (ToString keyword) <> "" ->
  fst (scrape keyword page pages net)
  = [(API_BASE ++ "/scrape?"
      ++ "keyword=" ++ urlencode (ToString keyword)
      ++ (if nullish page then "" else "&page=" ++ urlencode (ToString page))
      ++ (if nullish pages then "" else "&pages=" ++ urlencode (ToString pages)))%string]
  /\ (forall n : Z,
        nullish (VNum (ofZ n)) = false
        /\ urlencode (ToString (VNum (ofZ n))) = StringZ n)
  /\ (forall n : number,
        isFiniteNumber n = false ->
        nullish (VNum n) = false
        /\ urlencode (ToString (VNum n)) = ToString (VNum n)
        /\ In (ToString (VNum n)) ["NaN"; "Infinity"; "-Infinity"]).
Proof.
  intros Ht Hne. split; [|split].
  - rewrite (scrape_accepts keyword page pages net Ht Hne), query_shape.
    reflexivity.
  - intros n. split; [reflexivity|].
    now rewrite ToString_integer, urlencode_StringZ.
  - intros n Hn. destruct n; try discriminate Hn; simpl; tauto.
Qed.

Lemma query_parameters_witness :
  truthy (VStr "gaming laptop") = true
  /\ trim (ToString (host := exampleHost) (VStr "gaming laptop")) <> ""
  /\ fst (scrape (host := exampleHost) (VStr "gaming laptop") (VNum (ofZ 2))
            VUndefined (fun _ => Aborted))
     = ["http://localhost:8081/api/scrape?keyword=gaming+laptop&page=2"].
Proof.
  split; [reflexivity|]. split; [discriminate|].
  exact (proj1 (query_parameters exampleHost (VStr "gaming laptop")
                  (VNum (ofZ 2)) VUndefined (fun _ => Aborted)
                  eq_refl ltac:(discriminate))).
Defined.

End ApiFacts.

(** ** Labels and [parseInt] *)

Module LabelFacts.
Import JS ResultsUIBuilder WindowSpec.

Lemma digitsPrefix_step c k r a :
  digitValue c = Some k -> k < 10 ->
  digitsPrefix 10 (String c r) a
  = digitsPrefix 10 r (Some (10 * match a with Some x => x | None => 0 end + k)).
Proof.
  intros Hc Hk. cbn [digitsPrefix]. rewrite Hc.
  destruct (Z.ltb_spec k 10); [reflexivity | lia].
Qed.

(** Reads the leading digit of the numeral in the goal. *)
Ltac read_digit :=
  match goal with
  | |- digitsPrefix 10 (String ?c ?r) ?a = _ =>
      let k := eval cbv in (digitValue c) in
      match k with
      | Some ?kk => rewrite (digitsPrefix_step c kk r a eq_refl ltac:(lia))
      end
  end.

Ltac digit_step IH :=
  read_digit;
  cbn match;
  match goal with
  | |- digitsPrefix 10 _ (Some ?e) = Some (Z.pos (Pos.of_uint_acc _ ?a)) =>
      replace e with (Z.pos a) by lia; apply IH
  end.

(** Reading a numeral digit by digit is the accumulation that defines its
    value. *)
Lemma digitsPrefix_acc d : forall acc,
  digitsPrefix 10 (NilEmpty.string_of_uint d) (Some (Z.pos acc))
  = Some (Z.pos (Pos.of_uint_acc d acc)).
Proof.
  induction d as [|d IH|d IH|d IH|d IH|d IH|d IH|d IH|d IH|d IH|d IH];
    intros acc; cbn [NilEmpty.string_of_uint Pos.of_uint_acc];
    [reflexivity | digit_step IH ..].
Qed.

Lemma digitsPrefix_uint d : forall acc,
  acc = None \/ acc = Some 0 ->
  digitsPrefix 10 (NilEmpty.string_of_uint d) acc
  = match d with
    | Decimal.Nil => acc
    | _ => Some (Z.of_N (Pos.of_uint d))
    end.
Proof.
  induction d as [|d IH|d IH|d IH|d IH|d IH|d IH|d IH|d IH|d IH|d IH];
    intros acc Hacc; cbn [NilEmpty.string_of_uint Pos.of_uint];
    [reflexivity | |
     read_digit;
     destruct Hacc as [-> | ->]; cbn match; cbn [Z.of_N];
     match goal with
     | |- digitsPrefix 10 _ (Some ?e) = _ =>
         let v := eval cbv in e in change e with v
     end; apply digitsPrefix_acc ..].
  read_digit.
  replace (10 * match acc with Some x => x | None => 0 end + 0) with 0
    by (destruct Hacc as [-> | ->]; reflexivity).
  rewrite (IH (Some 0)) by now right.
  destruct d; reflexivity.
Qed.

(** On a numeral, [parseInt] with no radix finds no white space, no sign and
    no hexadecimal prefix, and reads the digits in base 10. *)
Lemma parseInt_digits d :
  d <> Decimal.Nil ->
  parseInt (NilEmpty.string_of_uint d) None
  = match digitsPrefix 10 (NilEmpty.string_of_uint d) None with
    | Some n => Some (1 * n)
    | None => None
    end.
Proof.
  intros Hd. destruct d as [|d|d|d|d|d|d|d|d|d|d]; [contradiction|..];
    destruct d; reflexivity.
Qed.

Lemma parseInt_minus_digits d :
  d <> Decimal.Nil ->
  parseInt (String "-" (NilEmpty.string_of_uint d)) None
  = match digitsPrefix 10 (NilEmpty.string_of_uint d) None with
    | Some n => Some (-1 * n)
    | None => None
    end.
Proof.
  intros Hd. destruct d as [|d|d|d|d|d|d|d|d|d|d]; [contradiction|..];
    destruct d; reflexivity.
Qed.

(** [parseInt(String(n))] is [n]: the label of a numbered item parses back
    to its page. *)
Lemma parseInt_StringZ (n : Z) : parseInt (StringZ n) None = Some n.
Proof.
  unfold StringZ. destruct n as [|p|p]; [reflexivity| |];
    cbn [Z.to_int NilZero.string_of_int];
    pose proof (DecimalPos.Unsigned.to_uint_nonnil p) as Hnn;
    assert (Hs : NilZero.string_of_uint (Pos.to_uint p)
                 = NilEmpty.string_of_uint (Pos.to_uint p))
      by (destruct (Pos.to_uint p); [contradiction | reflexivity ..]);
    rewrite Hs.
  - rewrite (parseInt_digits _ Hnn), (digitsPrefix_uint _ None) by now left.
    rewrite DecimalPos.Unsigned.of_to.
    destruct (Pos.to_uint p); [contradiction | reflexivity ..].
  - rewrite (parseInt_minus_digits _ Hnn), (digitsPrefix_uint _ None)
      by now left.
    rewrite DecimalPos.Unsigned.of_to.
    destruct (Pos.to_uint p); [contradiction | reflexivity ..].
Qed.

(** A numeral is neither of the two control labels. *)
Lemma StringZ_not_control (n : Z) : StringZ n <> "Prev" /\ StringZ n <> "Next".
Proof.
  pose proof (PaginationFacts.StringZ_not_nav n true) as H.
  unfold isNav, Page in H. cbn [Item.label] in H.
  apply orb_false_iff in H. destruct H as [H1 H2].
  split; now apply String.eqb_neq.
Qed.

End LabelFacts.

(** ** The page controller *)

Module ControllerFacts.
Import JS StateSpec ApiModel Main ApiFacts.

Lemma blank_trimEnd s : blank (trimEnd s) = true -> trimEnd s = "".
Proof.
  unfold blank. induction s as [|c s IH]; simpl; [reflexivity|].
  destruct (isWhiteSpace c) eqn:Ec; simpl.
  - destruct (String.eqb_spec (trimEnd s) "") as [E|E]; [reflexivity|].
    simpl. rewrite Ec. simpl. intros H. elim E. now apply IH.
  - rewrite Ec. discriminate.
Qed.

(** Trimming again does not empty a trimmed keyword. *)
Lemma trim_trim s : trim s <> "" -> trim (trim s) <> "".
Proof.
  intros Hne Hblank. apply trim_blank in Hblank.
  apply Hne. unfold trim in *. now apply blank_trimEnd.
Qed.

Lemma requestsOf_app (l1 l2 : list Effect) :
  requestsOf (l1 ++ l2) = requestsOf l1 ++ requestsOf l2.
Proof. apply flat_map_app. Qed.

Lemma requestsOf_showInfo doc c : requestsOf (showInfo doc c) = [].
Proof. unfold showInfo. now destruct (infoCard doc). Qed.

Section WithHost.
Context {host : Host}.

(** How [scrape] settles for an accepted keyword. *)
Lemma scrape_issued (kw : string) page pages net :
  trim kw <> "" ->
  exists settled,
    scrape (VStr kw) page pages net
    = ([(API_BASE ++ "/scrape?" ++ query (VStr kw) page pages)%string],
       settled)
    /\ (fetchFails (net (API_BASE ++ "/scrape?" ++ query (VStr kw) page pages)%string)
        = true -> exists e, settled = Throw e).
Proof.
  intros Hne. unfold scrape.
  rewrite (truthy_of_trim kw Hne). cbn [ToString].
  apply String.eqb_neq in Hne. cbn [negb truthy orb]. rewrite Hne.
  cbn [negb]. eexists. split; [reflexivity|].
  intros Hfail.
  destruct (net _) as [| |status body]; simpl in *; eauto.
  rewrite Hfail. eauto.
Qed.

Lemma fst_fetchPage doc net st : fst (fetchPage doc net st) = st.
Proof.
  unfold fetchPage.
  destruct (scrape _ _ _ net) as [urls [results|e]]; [|reflexivity].
  destruct (updateResultsUI doc st results) as [b [[cards el]|e]];
    reflexivity.
Qed.

Lemma requestsOf_fetchPage doc net st :
  trim (keyword st) <> "" ->
  requestsOf (snd (fetchPage doc net st))
  = [(API_BASE ++ "/scrape?"
      ++ query (VStr (keyword st)) (VNum (ofZ (page st)))
           (pagesArg (pages st)))%string].
Proof.
  intros Hne. unfold fetchPage.
  destruct (scrape_issued (keyword st) (VNum (ofZ (page st)))
              (pagesArg (pages st)) net Hne) as (settled & -> & _).
  destruct settled as [results|e].
  - destruct (updateResultsUI doc st results) as [b [[cards el]|e]];
      cbn [snd]; rewrite !requestsOf_app; unfold catch;
      rewrite ?requestsOf_app, ?requestsOf_showInfo; reflexivity.
  - cbn [snd]. rewrite !requestsOf_app. unfold catch.
    rewrite ?requestsOf_app, ?requestsOf_showInfo. reflexivity.
Qed.

End WithHost.

(** C7. A keyword that trims to the empty string is rejected before any
    network call: [scrapeAmazon] returns after showing the inline message,
    with the state as it was and no request issued; and [scrape] itself
    throws for an empty or blank keyword without issuing a request. *)
Theorem empty_keyword_rejected (host : Host) (doc : Document)
        (net net' : string -> FetchOutcome) (st : ScrapingData)
        (s : string) (page pages : value) :
  trim (keywordInput_value doc) = "" ->
  blank s = true ->
  scrapeAmazon doc net st = (st, showInfo doc enterKeyword)
  /\ requestsOf (snd (scrapeAmazon doc net st)) = []
  /\ (infoCard doc = true ->
      snd (scrapeAmazon doc net st) = [InfoShow enterKeyword])
  /\ scrape (VStr s) page pages net' = ([], Throw keywordRequired).
Proof.
  intros Hkw Hs.
  assert (H : scrapeAmazon doc net st = (st, showInfo doc enterKeyword)).
  { unfold scrapeAmazon. rewrite Hkw. reflexivity. }
  rewrite H. repeat split.
  - apply requestsOf_showInfo.
  - intros Hinfo. cbn [snd]. unfold showInfo. now rewrite Hinfo.
  - apply scrape_rejects. cbn [ToString]. now apply trim_blank.
Qed.

Lemma empty_keyword_rejected_witness :
  let doc := mkDocument "   " "2" true None None None in
  trim (keywordInput_value doc) = ""
  /\ blank " " = true
  /\ scrapeAmazon (host := exampleHost) doc (fun _ => NetworkError) scrapingData0
     = (scrapingData0, [InfoShow enterKeyword])
  /\ scrape (host := exampleHost) (VStr " ") (VNum (ofZ 1)) VUndefined
       (fun _ => NetworkError)
     = ([], Throw keywordRequired).
Proof.
  split; [reflexivity|]. split; [reflexivity|].
  pose proof (empty_keyword_rejected exampleHost
                (mkDocument "   " "2" true None None None)
                (fun _ => NetworkError) (fun _ => NetworkError)
                scrapingData0 " " (VNum (ofZ 1)) VUndefined eq_refl eq_refl)
    as (H1 & _ & _ & H4).
  split; [exact H1 | exact H4].
Defined.

(** The request of a submit: the trimmed keyword, page 1, and the page
    count when the select's value parses to an integer; the controller, not
    the fetch client, turns a page count that is not finite into
    [undefined]. *)
Lemma submit_request (host : Host) (doc : Document)
      (net : string -> FetchOutcome) (st : ScrapingData) :
  trim (keywordInput_value doc) <> "" ->
  requestsOf (snd (scrapeAmazon doc net st))
  = [(API_BASE ++ "/scrape?"
      ++ "keyword=" ++ urlencode (trim (keywordInput_value doc))
      ++ "&page=1"
      ++ match parseInt (pageSelect_value doc) (Some 10) with
         | Some n => "&pages=" ++ StringZ n
         | None => ""
         end)%string].
Proof.
  intros Hkw. unfold scrapeAmazon.
  rewrite (truthy_of_trim _ (trim_trim _ Hkw)).
  cbn [negb keyword page pages Main.totalPages].
  destruct (scrape_issued (trim (keywordInput_value doc)) (VNum (ofZ 1))
              (pagesArg (parseInt (pageSelect_value doc) (Some 10))) net
              (trim_trim _ Hkw)) as (settled & -> & _).
  assert (Hq : query (VStr (trim (keywordInput_value doc))) (VNum (ofZ 1))
                 (pagesArg (parseInt (pageSelect_value doc) (Some 10)))
               = ("keyword=" ++ urlencode (trim (keywordInput_value doc))
                  ++ "&page=1"
                  ++ match parseInt (pageSelect_value doc) (Some 10) with
                     | Some n => "&pages=" ++ StringZ n
                     | None => ""
                     end)%string).
  { rewrite query_shape.
    destruct (parseInt (pageSelect_value doc) (Some 10)) as [n|];
      cbn [pagesArg nullish]; [|reflexivity].
    rewrite (ToString_integer n), urlencode_StringZ. reflexivity. }
  rewrite Hq.
  destruct settled as [results|e].
  - match goal with
    | |- context [updateResultsUI ?d ?s ?r] =>
        destruct (updateResultsUI d s r) as [b [[cards el]|e]]
    end;
      cbn [snd]; rewrite !requestsOf_app; unfold catch, hideInfo;
      rewrite ?requestsOf_app, ?requestsOf_showInfo;
      destruct (infoCard doc); reflexivity.
  - cbn [snd]. rewrite !requestsOf_app. unfold catch.
    rewrite ?requestsOf_app, ?requestsOf_showInfo. reflexivity.
Qed.

(** C5, the claim as stated fails: a submit whose fetch fails has already
    overwritten the keyword, the current page and the page count. *)
Lemma failed_submit_overwrites_state :
  let doc := mkDocument " phone " "2" true None None None in
  let st := mkData "laptop" 3 (Some 1) 5 in
  fetchFails NetworkError = true
  /\ fst (scrapeAmazon (host := exampleHost) doc (fun _ => NetworkError) st)
     = mkData "phone" 1 (Some 2) 5
  /\ mkData "phone" 1 (Some 2) 5 <> st
  /\ keyword (mkData "phone" 1 (Some 2) 5) <> keyword st
  /\ page (mkData "phone" 1 (Some 2) 5) <> page st
  /\ pages (mkData "phone" 1 (Some 2) 5) <> pages st.
Proof. repeat split; discriminate. Qed.

(** C5, amended. On a submit whose fetch fails (network error, timeout or
    a status outside 2xx), the controller logs the error, shows the generic
    retry message (when the page has the info element) and re-enables the
    button; [totalPages] keeps the value it had before the submit, while
    keyword, current page and requested page count hold what the submit
    assigned before fetching: the trimmed input, 1 and the parsed page
    count. *)
Theorem failed_submit (host : Host) (doc : Document)
        (net : string -> FetchOutcome) (st : ScrapingData) :
  let kw := trim (keywordInput_value doc) in
  let pagesVal := parseInt (pageSelect_value doc) (Some 10) in
  let url := (API_BASE ++ "/scrape?"
              ++ query (VStr kw) (VNum (ofZ 1)) (pagesArg pagesVal))%string in
  kw <> "" ->
  fetchFails (net url) = true ->
  exists e : error,
    scrapeAmazon doc net st
    = (mkData kw 1 pagesVal (totalPages st),
       [ButtonDisabled true; Request url; ConsoleError e]
         ++ showInfo doc couldNotLoad ++ [ButtonDisabled false]).
Proof.
  intros kw pagesVal url Hkw Hfail.
  unfold scrapeAmazon. fold kw. fold pagesVal.
  assert (Ht : truthy (VStr kw) = true).
  { destruct kw; [now elim Hkw | reflexivity]. }
  rewrite Ht. cbn [negb keyword page pages Main.totalPages].
  destruct (scrape_issued kw (VNum (ofZ 1)) (pagesArg pagesVal) net
              (trim_trim _ Hkw)) as (settled & -> & Hthrow).
  destruct (Hthrow Hfail) as (e & ->).
  exists e. reflexivity.
Qed.

Lemma failed_submit_witness :
  let doc := mkDocument " phone " "2" true None None None in
  trim (keywordInput_value doc) <> ""
  /\ fetchFails (Response 503 None) = true
  /\ exists e : error,
       scrapeAmazon (host := exampleHost) doc (fun _ => Response 503 None)
         (mkData "laptop" 3 (Some 1) 5)
       = (mkData "phone" 1 (Some 2) 5,
          [ButtonDisabled true;
           Request "http://localhost:8081/api/scrape?keyword=phone&page=1&pages=2";
           ConsoleError e; InfoShow couldNotLoad; ButtonDisabled false]).
Proof.
  split; [discriminate|]. split; [reflexivity|].
  exact (failed_submit exampleHost
           (mkDocument " phone " "2" true None None None)
           (fun _ => Response 503 None) (mkData "laptop" 3 (Some 1) 5)
           ltac:(discriminate) eq_refl).
Defined.

(** *** Navigation clicks *)

Lemma selectPage_prev st :
  selectPage st "Prev"
  = if page st >? 1 then Some (withPage st (page st - 1)) else None.
Proof.
  unfold selectPage. cbn. now destruct (page st >? 1).
Qed.

Lemma selectPage_next st :
  selectPage st "Next"
  = if Qlt_bool (inject_Z (page st)) (totalPages st)
    then Some (withPage st (page st + 1)) else None.
Proof.
  unfold selectPage. cbn.
  now destruct (Qlt_bool (inject_Z (page st)) (totalPages st)).
Qed.

Lemma selectPage_number st label :
  label <> "Prev" -> label <> "Next" ->
  selectPage st label
  = match parseInt label None with
    | Some n => if (n =? page st) || (n =? 0) then None
                else Some (withPage st n)
    | None => None
    end.
Proof.
  intros Hp Hn. unfold selectPage.
  apply not_eq_sym, String.eqb_neq in Hp. apply not_eq_sym, String.eqb_neq in Hn.
  cbn [existsb]. rewrite Hp, Hn. cbn [orb].
  destruct (parseInt label None) as [n|]; [|reflexivity].
  destruct (n =? page st); [reflexivity|]. cbn [negb orb].
  now destruct (n =? 0).
Qed.

(** C6, the claim as stated fails: Prev is taken although the resulting
    page lies outside [1, totalPages]. A submit is answered with
    [totalPages: "5"], which is not a finite number: the state keeps a total
    of 1 while the bar is drawn for 5 pages. A click on 5 and then on Prev
    leaves the controller on page 4, fetched, with a known total of 1. *)
Lemma prev_leaves_known_range :
  let doc := mkDocument "laptop" "1" true None None None in
  let results := VObj [("totalPages", VStr "5")] in
  let net := fun _ : string => Response 200 (Some results) in
  let st1 := fst (scrapeAmazon (host := exampleHost) doc net scrapingData0) in
  let st2 := fst (changePage (host := exampleHost) doc net st1 "5") in
  st1 = mkData "laptop" 1 (Some 1) 1
  /\ ResultsUIBuilder.totalPages
       (fst (updateResultsUI (host := exampleHost) doc st1 results))
     = Fin 5
  /\ st2 = mkData "laptop" 5 (Some 1) 1
  /\ withinBounds st2 (page st2 - 1) = false
  /\ fst (changePage (host := exampleHost) doc net st2 "Prev")
     = mkData "laptop" 4 (Some 1) 1
  /\ requestsOf (snd (changePage (host := exampleHost) doc net st2 "Prev"))
     = ["http://localhost:8081/api/scrape?keyword=laptop&page=4&pages=1"].
Proof. repeat split. Qed.

(** C6, amended. A navigation click, on a state whose current page is one
    the bar shows ([1 <= page <= max(1, totalPages)], [totalPages] an integer [t]):
    the label Prev (Next), matched literally, decrements (increments) the
    current page and fetches exactly when the resulting page stays within
    [1, totalPages], and is ignored without any fetch otherwise; any other
    label is parsed as an integer page number, which is adopted and fetched
    when it differs from the current page and ignored when it equals it (so
    for the label of every numbered item of the bar, which parses back to
    its page).
    Adopting and fetching is [fetchPage]: it keeps the adopted state and, the
    keyword being a submitted one, issues exactly one request, for the
    adopted page. *)
Theorem navigation_click (host : Host) (doc : Document)
        (net : string -> FetchOutcome) (st : ScrapingData) (t : Z) :
  (totalPages st == inject_Z t)%Q ->
  1 <= page st <= Z.max 1 t ->
  changePage doc net st "Prev"
  = (if withinBounds st (page st - 1)
     then fetchPage doc net (withPage st (page st - 1))
     else (st, []))
  /\ changePage doc net st "Next"
     = (if withinBounds st (page st + 1)
        then fetchPage doc net (withPage st (page st + 1))
        else (st, []))
  /\ (forall (label : string) (n : Z),
        label <> "Prev" -> label <> "Next" ->
        parseInt label None = Some n -> 1 <= n ->
        changePage doc net st label
        = (if n =? page st then (st, [])
           else fetchPage doc net (withPage st n)))
  /\ (forall p : Z,
        1 <= p ->
        changePage doc net st (StringZ p)
        = (if p =? page st then (st, [])
           else fetchPage doc net (withPage st p)))
  /\ changePage doc net st "prev" = (st, [])
  /\ changePage doc net st "NEXT" = (st, [])
  /\ (forall st' : ScrapingData,
        fst (fetchPage doc net st') = st'
        /\ (trim (keyword st') <> "" ->
            requestsOf (snd (fetchPage doc net st'))
            = [(API_BASE ++ "/scrape?"
                ++ query (VStr (keyword st')) (VNum (ofZ (page st')))
                     (pagesArg (pages st')))%string]))
  /\ requestsOf (snd (st, @nil Effect)) = [].
Proof.
  intros Ht Hpage.
  assert (Hle : forall p, Qle_bool (inject_Z p) (totalPages st) = (p <=? t)).
  { intros p. rewrite (Qleb_comp _ _ (reflexivity _) _ _ Ht).
    destruct (Z.leb_spec p t) as [H|H].
    - apply Qle_bool_iff. now rewrite <- Zle_Qle.
    - destruct (Qle_bool (inject_Z p) (inject_Z t)) eqn:E; [|reflexivity].
      apply Qle_bool_iff in E. rewrite <- Zle_Qle in E. lia. }
  assert (Hge : forall p, Qle_bool (totalPages st) (inject_Z p) = (t <=? p)).
  { intros p. rewrite (Qleb_comp _ _ Ht _ _ (reflexivity _)).
    destruct (Z.leb_spec t p) as [H|H].
    - apply Qle_bool_iff. now rewrite <- Zle_Qle.
    - destruct (Qle_bool (inject_Z t) (inject_Z p)) eqn:E; [|reflexivity].
      apply Qle_bool_iff in E. rewrite <- Zle_Qle in E. lia. }
  assert (Hnum : forall (label : string) (n : Z),
            label <> "Prev" -> label <> "Next" ->
            parseInt label None = Some n -> 1 <= n ->
            changePage doc net st label
            = (if n =? page st then (st, [])
               else fetchPage doc net (withPage st n))).
  { intros label n Hp Hn Hparse Hpos.
    unfold changePage. rewrite (selectPage_number st label Hp Hn), Hparse.
    destruct (Z.eqb_spec n (page st)); [reflexivity|].
    destruct (Z.eqb_spec n 0); [lia | reflexivity]. }
  split; [|split; [|split; [|split; [|split; [|split; [|split]]]]]].
  - unfold changePage, withinBounds. rewrite selectPage_prev, Hle.
    destruct (Z.gtb_spec (page st) 1), (Z.leb_spec 1 (page st - 1)),
      (Z.leb_spec (page st - 1) t); try lia; reflexivity.
  - unfold changePage, withinBounds. rewrite selectPage_next, Hle.
    unfold Qlt_bool. rewrite Hge.
    destruct (Z.leb_spec t (page st)), (Z.leb_spec 1 (page st + 1)),
      (Z.leb_spec (page st + 1) t); try lia; reflexivity.
  - exact Hnum.
  - intros p Hp.
    destruct (LabelFacts.StringZ_not_control p) as [H1 H2].
    exact (Hnum (StringZ p) p H1 H2 (LabelFacts.parseInt_StringZ p) Hp).
  - reflexivity.
  - reflexivity.
  - intros st'. split; [apply fst_fetchPage | apply requestsOf_fetchPage].
  - reflexivity.
Qed.

Lemma navigation_click_witness :
  let st := mkData "laptop" 3 (Some 1) 5 in
  let doc := mkDocument "laptop" "1" true None None None in
  (totalPages st == inject_Z 5)%Q
  /\ 1 <= page st <= Z.max 1 5
  /\ changePage (host := exampleHost) doc (fun _ => Aborted) st "Prev"
     = (mkData "laptop" 2 (Some 1) 5,
        [ButtonDisabled true;
         Request "http://localhost:8081/api/scrape?keyword=laptop&page=2&pages=1";
         ConsoleError (Err "AbortError" "The operation was aborted.");
         InfoShow couldNotLoad; ButtonDisabled false]).
Proof.
  split; [reflexivity|]. split; [cbn; lia|].
  exact (proj1 (navigation_click exampleHost
                  (mkDocument "laptop" "1" true None None None)
                  (fun _ => Aborted) (mkData "laptop" 3 (Some 1) 5) 5
                  (Qeq_refl _) ltac:(cbn; lia))).
Defined.

(** Outside that range the two guards of the code are each one-sided:
    Prev is taken whenever the current page exceeds 1, and a label that
    parses to 0 or does not parse is ignored. *)
Lemma navigation_click_edges :
  let doc := mkDocument "laptop" "1" true None None None in
  fst (changePage (host := exampleHost) doc (fun _ => Aborted)
         (mkData "laptop" 7 (Some 1) 3) "Prev")
  = mkData "laptop" 6 (Some 1) 3
  /\ changePage (host := exampleHost) doc (fun _ => Aborted)
       (mkData "laptop" 3 (Some 1) 5) "0"
     = (mkData "laptop" 3 (Some 1) 5, [])
  /\ changePage (host := exampleHost) doc (fun _ => Aborted)
       (mkData "laptop" 3 (Some 1) 5) "..."
     = (mkData "laptop" 3 (Some 1) 5, []).
Proof. repeat split. Qed.

End ControllerFacts.

(** ** The page list on numbers *)

Module NumberFacts.
Import JS ResultsUIBuilder ResultsUIRender ViewSpec.

(** *** Integers among the numbers *)

Lemma minus_ofZ (a b : Z) : minus (ofZ a) (ofZ b) = ofZ (a - b).
Proof.
  unfold minus, ofZ, inject_Z, Qminus, Qplus, Qopp. cbn [Qnum Qden Pos.mul].
  do 2 f_equal. lia.
Qed.

Lemma plus_ofZ (a b : Z) : plus (ofZ a) (ofZ b) = ofZ (a + b).
Proof.
  unfold plus, ofZ, inject_Z, Qplus. cbn [Qnum Qden Pos.mul].
  do 2 f_equal. lia.
Qed.

Lemma Qle_bool_ofZ (a b : Z) : Qle_bool (inject_Z a) (inject_Z b) = (a <=? b).
Proof.
  unfold Qle_bool, inject_Z. cbn [Qnum Qden]. now rewrite !Z.mul_1_r.
Qed.

Lemma lt_ofZ (a b : Z) : lt (ofZ a) (ofZ b) = (a <? b).
Proof.
  unfold lt, ofZ, Qlt_bool. rewrite Qle_bool_ofZ.
  destruct (Z.leb_spec b a), (Z.ltb_spec a b); try reflexivity; lia.
Qed.

Lemma gt_ofZ (a b : Z) : gt (ofZ a) (ofZ b) = (a >? b).
Proof. unfold gt. rewrite lt_ofZ. now rewrite Z.gtb_ltb. Qed.

Lemma ge_ofZ (a b : Z) : ge (ofZ a) (ofZ b) = (a >=? b).
Proof.
  unfold ge. change (negb (lt (ofZ a) (ofZ b)) = (a >=? b)).
  rewrite lt_ofZ, Z.geb_leb.
  destruct (Z.ltb_spec a b), (Z.leb_spec b a); try reflexivity; lia.
Qed.

Lemma le_ofZ (a b : Z) : le (ofZ a) (ofZ b) = (a <=? b).
Proof. unfold le. rewrite ge_ofZ. now rewrite Z.geb_leb. Qed.

Lemma strictEq_ofZ (a b : Z) : strictEq (ofZ a) (ofZ b) = (a =? b).
Proof.
  unfold strictEq, ofZ. destruct (Z.eqb_spec a b) as [->|Hne].
  - apply Qeq_bool_refl.
  - destruct (Qeq_bool _ _) eqn:E; [|reflexivity].
    apply Qeq_bool_eq in E. rewrite inject_Z_injective in E. contradiction.
Qed.

Lemma Math_max_ofZ (a b : Z) : Math_max (ofZ a) (ofZ b) = ofZ (Z.max a b).
Proof.
  unfold Math_max, ofZ. rewrite Qle_bool_ofZ.
  destruct (Z.leb_spec a b); f_equal; f_equal; lia.
Qed.

Lemma Math_min_ofZ (a b : Z) : Math_min (ofZ a) (ofZ b) = ofZ (Z.min a b).
Proof.
  unfold Math_min, ofZ. rewrite Qle_bool_ofZ.
  destruct (Z.leb_spec a b); f_equal; f_equal; lia.
Qed.

Lemma loopFuel_ofZ (s e : Z) :
  Num.loopFuel (ofZ s) (ofZ e) = S (Z.to_nat (e + 1 - s)).
Proof.
  unfold Num.loopFuel, ofZ. f_equal. f_equal.
  unfold Qfloor, inject_Z, Qminus, Qplus, Qopp. cbn [Qnum Qden Pos.mul].
  rewrite Z.div_1_r. lia.
Qed.

(** *** The loop *)

Lemma floor_step (x : Q) : Qfloor (x - 1) = Qfloor x - 1.
Proof.
  pose proof (Qfloor_le x) as Hlo. pose proof (Qlt_floor x) as Hhi.
  pose proof (Qfloor_le (x - 1)) as Hlo'.
  pose proof (Qlt_floor (x - 1)) as Hhi'.
  rewrite inject_Z_plus in Hhi, Hhi'.
  assert (H1 : (inject_Z (Qfloor (x - 1)) < inject_Z (Qfloor x))%Q) by
    (change (inject_Z 1) with 1%Q in *; lra).
  assert (H2 : (inject_Z (Qfloor x - 1 - 1) < inject_Z (Qfloor (x - 1)))%Q).
  { unfold Z.sub. rewrite !inject_Z_plus, !inject_Z_opp.
    change (inject_Z 1) with 1%Q in *. lra. }
  rewrite <- Zlt_Qlt in H1, H2. lia.
Qed.

Section WithHost.
Context {host : Host}.

Lemma NumberToString_ofZ (n : Z) : NumberToString (ofZ n) = StringZ n.
Proof. exact (ApiFacts.ToString_integer n). Qed.

(** More fuel does not change what the loop returns. *)
Lemma windowLoop_more_fuel (fuel : nat) : forall p e cur items r extra,
  Num.windowLoop fuel p e cur items = Some r ->
  Num.windowLoop (fuel + extra) p e cur items = Some r.
Proof.
  induction fuel as [|fuel IH]; intros p e cur items r extra H;
    [discriminate H|].
  cbn [Num.windowLoop Nat.add] in *.
  destruct (le p e); [apply IH; exact H | exact H].
Qed.

(** From a finite start to a finite end the loop ends within
    [loopFuel]. *)
Lemma windowLoop_ends (k : nat) : forall s e cur items,
  Z.to_nat (Qfloor (e - s) + 1) = k ->
  exists r, Num.windowLoop (S k) (Fin s) (Fin e) cur items = Some r.
Proof.
  induction k as [|k IH]; intros s e cur items Hk; cbn [Num.windowLoop].
  - destruct (le (Fin s) (Fin e)) eqn:Hle; [|eexists; reflexivity].
    exfalso. unfold le, ge, lt, Qlt_bool in Hle.
    rewrite negb_involutive in Hle. apply Qle_bool_iff in Hle.
    assert (H0 : (0 <= e - s)%Q) by lra.
    apply Qfloor_resp_le in H0. change (Qfloor 0) with 0 in H0. lia.
  - destruct (le (Fin s) (Fin e)) eqn:Hle; [|eexists; reflexivity].
    cbn [plus]. apply IH.
    assert (Hq : (e - (s + 1) == e - s - 1)%Q) by ring.
    rewrite (Qfloor_comp _ _ Hq), floor_step. lia.
Qed.

(** From [Infinity] to [Infinity] no test ever fails. *)
Lemma windowLoop_never (fuel : nat) : forall cur items,
  Num.windowLoop fuel PInf PInf cur items = None.
Proof.
  induction fuel as [|fuel IH]; intros cur items; [reflexivity|].
  cbn [Num.windowLoop]. change (le PInf PInf) with true. cbn [plus]. apply IH.
Qed.

Lemma windowLoop_S (fuel : nat) p e cur items :
  Num.windowLoop (S fuel) p e cur items
  = if le p e then
      Num.windowLoop fuel (plus p (Fin 1)) e cur
        (push items
           {| Num.type := Item.typePage; Num.page := Some p;
              Num.label := Some (NumberToString p);
              Num.current := Some (strictEq p cur); Num.disabled := None |})
    else Some items.
Proof. reflexivity. Qed.

(** On integers the loop is the loop of the integer page list. *)
Lemma windowLoop_integers (k : nat) : forall p e c items,
  Z.to_nat (e + 1 - p) = k ->
  Num.windowLoop (S k) (ofZ p) (ofZ e) (ofZ c) (map ofItem items)
  = Some (map ofItem (ResultsUIBuilder.windowLoop k p e c items)).
Proof.
  induction k as [|k IH]; intros p e c items Hk; rewrite windowLoop_S, le_ofZ.
  - destruct (Z.leb_spec p e); [lia | reflexivity].
  - destruct (Z.leb_spec p e); [|lia].
    change (Fin 1) with (ofZ 1).
    rewrite plus_ofZ, NumberToString_ofZ, strictEq_ofZ.
    cbn [ResultsUIBuilder.windowLoop].
    destruct (Z.leb_spec p e); [|lia].
    rewrite <- (IH (p + 1) e c) by lia.
    unfold push. rewrite map_app. reflexivity.
Qed.

(** On integers [#buildPageList] is the integer page list: the two
    embeddings of the function agree where both apply. *)
Lemma buildPageList_integers (c t n : Z) :
  Num.buildPageList (ofZ c) (ofZ t) (ofZ n)
  = Some (map ofItem (ResultsUIBuilder.buildPageList c t n)).
Proof.
  unfold Num.buildPageList, ResultsUIBuilder.buildPageList. cbv zeta.
  change (Fin 1) with (ofZ 1). change (Fin 2) with (ofZ 2).
  rewrite !minus_ofZ, !plus_ofZ, !Math_min_ofZ, !Math_max_ofZ, gt_ofZ,
    lt_ofZ, le_ofZ, ge_ofZ, gt_ofZ, !strictEq_ofZ, NumberToString_ofZ,
    loopFuel_ofZ.
  set (start := Z.max 2 (c - n)). set (end_ := Z.min (t - 1) (c + n)).
  match goal with
  | |- context [ResultsUIBuilder.windowLoop _ _ _ _ ?zitems] =>
      pose proof (windowLoop_integers _ start end_ c zitems eq_refl) as Hloop
  end.
  unfold ofItem at 1 in Hloop.
  destruct (start >? 2); cbn [push app map option_map Item.type
    Item.page Item.label Item.current Item.disabled] in Hloop |- *;
    rewrite Hloop; unfold push;
    destruct (end_ <? t - 1), (t >? 1); rewrite ?map_app; reflexivity.
Qed.

(** With [loopFuel] the loop returns as soon as its first test fails or
    both ends are finite. *)
Lemma windowLoop_loopFuel (start end_ cur : number) (items : list Num.Item) :
  le start end_ = false \/ (exists s e, start = Fin s /\ end_ = Fin e) ->
  exists r,
    Num.windowLoop (Num.loopFuel start end_) start end_ cur items = Some r.
Proof.
  intros [Hle|(s & e & -> & ->)].
  - assert (Hf : exists f, Num.loopFuel start end_ = S f)
      by (destruct start, end_; eexists; reflexivity).
    destruct Hf as (f & ->). rewrite windowLoop_S, Hle. eexists. reflexivity.
  - exact (windowLoop_ends _ s e cur items eq_refl).
Qed.

Lemma windowLoop_stuck (fuel : nat) : forall p e cur items,
  neverEnds p e = true -> Num.windowLoop fuel p e cur items = None.
Proof.
  induction fuel as [|fuel IH]; intros p e cur items Hne; [reflexivity|].
  rewrite windowLoop_S.
  assert (H : le p e = true /\ neverEnds (plus p (Fin 1)) e = true)
    by (destruct p, e; try discriminate Hne; split; reflexivity).
  destruct H as [-> Hnext]. apply IH. exact Hnext.
Qed.

(** [loopFuel] is enough: either the loop never ends, and returns with no
    fuel at all, or it returns within [loopFuel] tests and more fuel changes
    nothing. *)
Lemma loopFuel_enough (start end_ cur : number) (items : list Num.Item) :
  (neverEnds start end_ = true
   /\ forall fuel, Num.windowLoop fuel start end_ cur items = None)
  \/ (neverEnds start end_ = false
      /\ exists r,
           forall extra,
             Num.windowLoop (Num.loopFuel start end_ + extra)
               start end_ cur items = Some r).
Proof.
  destruct (neverEnds start end_) eqn:Hne.
  - left. split; [reflexivity|]. intros fuel. now apply windowLoop_stuck.
  - right. split; [reflexivity|].
    destruct (windowLoop_loopFuel start end_ cur items) as (r & Hr).
    + destruct start as [| | |s], end_ as [| | |e];
        try discriminate Hne; try (left; reflexivity).
      right. eexists. eexists. split; reflexivity.
    + exists r. intros extra. now apply windowLoop_more_fuel.
Qed.


(** For [(Infinity, Infinity)] it does not: the loop starts at
    [Infinity], where [p <= end] holds and [p++] changes nothing. *)
Lemma buildPageList_diverges :
  Num.buildPageList PInf PInf (Fin 1) = None
  /\ forall fuel cur items, Num.windowLoop fuel PInf PInf cur items = None.
Proof.
  split; [reflexivity | intros; apply windowLoop_never].
Qed.

End WithHost.

End NumberFacts.
(** ** More on the pagination window *)

Module WindowFacts.
Import JS ResultsUIBuilder WindowSpec ResultsUIRender ViewSpec PaginationFacts.
Import NumberFacts.

Lemma length_range lo hi : length (range lo hi) = Z.to_nat (hi + 1 - lo).
Proof. unfold range. now rewrite length_map, length_seq. Qed.

(** X1. The bar is compact: whatever the current page and the total, it has
    at least three items and at most [2 * neighbors + 7], nine with the
    default neighbourhood. *)
Theorem bar_length_bounds (current total neighbors : Z) :
  (3 <= length (buildPageList current total neighbors)
   <= 6 + Z.to_nat (2 * neighbors + 1))%nat
  /\ (3 <= length (buildPageList1 current total) <= 9)%nat.
Proof.
  assert (H : forall n,
             (3 <= length (buildPageList current total n)
              <= 6 + Z.to_nat (2 * n + 1))%nat).
  { intros n. rewrite buildPageList_computeWindow. unfold computeWindow.
    cbv zeta. repeat rewrite length_app. rewrite length_map, length_range.
    destruct (Z.max 2 (current - n) >? 2),
      (Z.min (total - 1) (current + n) <? total - 1), (total >? 1);
      cbn [length]; lia. }
  split; [apply H|]. unfold buildPageList1. specialize (H 1).
  change (Z.to_nat (2 * 1 + 1)) with 3%nat in H. lia.
Qed.

Lemma filter_current_range (c : Z) : forall k lo hi,
  Z.to_nat (hi + 1 - lo) = k ->
  filter (fun p => p =? c) (range lo hi)
  = if (lo <=? c) && (c <=? hi) then [c] else [].
Proof.
  induction k as [|k IH]; intros lo hi Hk.
  - rewrite range_nil by lia.
    destruct (Z.leb_spec lo c), (Z.leb_spec c hi); try reflexivity; lia.
  - rewrite range_cons by lia. cbn [filter]. rewrite (IH (lo + 1) hi) by lia.
    destruct (Z.eqb_spec lo c), (Z.leb_spec lo c), (Z.leb_spec (lo + 1) c),
      (Z.leb_spec c hi); cbn [andb]; try reflexivity; try lia.
    now subst.
Qed.

Lemma filter_current_pages (c : Z) (l : list Z) :
  filter marksCurrent (map (fun p => Page p (p =? c)) l)
  = map (fun p => Page p true) (filter (fun p => p =? c) l).
Proof.
  induction l as [|p l IH]; [reflexivity|].
  cbn [map filter]. unfold marksCurrent at 1. cbn [Page Item.current flag].
  destruct (p =? c); cbn [map]; now rewrite IH.
Qed.

(** The current items of the integer page list. *)
Lemma current_items (current total neighbors : Z) :
  0 <= neighbors -> 1 <= total ->
  filter marksCurrent (buildPageList current total neighbors)
  = if (1 <=? current) && (current <=? total)
    then [Page current true] else [].
Proof.
  intros Hn Ht. rewrite buildPageList_computeWindow. unfold computeWindow.
  cbv zeta. repeat rewrite filter_app.
  rewrite filter_current_pages, (filter_current_range current _ _ _ eq_refl).
  assert (Hell : forall b : bool,
             filter marksCurrent (if b then [Ellipsis] else []) = []).
  { now intros []. }
  rewrite !Hell.
  assert (Hlast : filter marksCurrent
                    (if total >? 1 then [Page total (current =? total)] else [])
                  = if (total >? 1) && (current =? total)
                    then [Page current true] else []).
  { destruct (total >? 1); [|reflexivity].
    unfold marksCurrent. cbn [filter Page Item.current flag andb].
    destruct (Z.eqb_spec current total); [now subst | reflexivity]. }
  rewrite Hlast.
  unfold marksCurrent. cbn [filter Prev Next Page Item.current flag app].
  destruct (Z.eqb_spec current 1) as [E1|E1];
    destruct (Z.gtb_spec total 1);
    destruct (Z.eqb_spec current total);
    destruct (Z.leb_spec (Z.max 2 (current - neighbors)) current);
    destruct (Z.leb_spec current (Z.min (total - 1) (current + neighbors)));
    destruct (Z.leb_spec 1 current);
    destruct (Z.leb_spec current total);
    cbn [andb map app]; try lia; try reflexivity; subst; reflexivity.
Qed.

Lemma filter_current_ofItem (l : list Item.t) :
  filter isCurrent (map ofItem l) = map ofItem (filter marksCurrent l).
Proof.
  induction l as [|it l IH]; [reflexivity|].
  cbn [map filter]. change (isCurrent (ofItem it)) with (marksCurrent it).
  destruct (marksCurrent it); cbn [map]; now rewrite IH.
Qed.

(** X2. When the current page, the total and the neighbourhood are
    integers, with at least one page: [#buildPageList] returns, and exactly
    one item of the list is marked current, the numbered item of the
    current page, when the current page lies inside [1, total]; none is
    when it lies outside. The integers matter: on page 2 of a total of 2.5,
    which [setTotalPages] keeps, the list has no current item. *)
Theorem one_current_item (host : Host) (current total neighbors : Z) :
  0 <= neighbors -> 1 <= total ->
  (exists items : list Num.Item,
     Num.buildPageList (ofZ current) (ofZ total) (ofZ neighbors) = Some items
     /\ filter isCurrent items
        = if (1 <=? current) && (current <=? total)
          then [ofItem (Page current true)] else [])
  /\ (exists items : list Num.Item,
        Num.buildPageList (Fin 2) (Fin (5 # 2)) (Fin 1) = Some items
        /\ filter isCurrent items = []).
Proof.
  intros Hn Ht. split.
  - rewrite buildPageList_integers. eexists. split; [reflexivity|].
    rewrite filter_current_ofItem, (current_items _ _ _ Hn Ht).
    now destruct (_ && _).
  - eexists. split; reflexivity.
Qed.

Lemma one_current_item_witness :
  0 <= 1 /\ 1 <= 10
  /\ exists items : list Num.Item,
       Num.buildPageList (host := exampleHost) (ofZ 5) (ofZ 10) (ofZ 1)
       = Some items
       /\ filter isCurrent items = [ofItem (Page 5 true)].
Proof.
  split; [lia|]. split; [lia|].
  exact (proj1 (one_current_item exampleHost 5 10 1 ltac:(lia) ltac:(lia))).
Defined.

(** X3. With at least one page, every page item of the bar targets a page
    of the result set: Prev and Next through their clamp, the numbered items
    by the bounds of the window. *)
Theorem targets_within_bounds (current total neighbors : Z) :
  1 <= total ->
  Forall (fun v => 1 <= v <= total)
    (targets (buildPageList current total neighbors)).
Proof.
  intros Ht. rewrite all_targets, numbered_targets.
  apply Forall_forall. intros v Hv. cbn [In] in Hv.
  rewrite in_app_iff in Hv. cbn [In] in Hv.
  rewrite in_app_iff, In_range in Hv. unfold clamp in Hv.
  destruct Hv as [Hv|[[Hv|[Hv|Hv]]|[Hv|[]]]]; try lia.
  destruct (Z.gtb_spec total 1); cbn [In] in Hv; lia.
Qed.

Lemma targets_within_bounds_witness :
  1 <= 10
  /\ Forall (fun v => 1 <= v <= 10) (targets (buildPageList (-3) 10 1)).
Proof.
  split; [lia | exact (targets_within_bounds (-3) 10 1 ltac:(lia))].
Defined.

Lemma StronglySorted_app (l1 l2 : list Z) :
  StronglySorted Z.lt l1 -> StronglySorted Z.lt l2 ->
  (forall x y, In x l1 -> In y l2 -> x < y) ->
  StronglySorted Z.lt (l1 ++ l2).
Proof.
  induction l1 as [|a l1 IH]; intros H1 H2 H; [exact H2|].
  inversion H1 as [|? ? Hs Hf]; subst. cbn [app]. constructor.
  - apply IH; [exact Hs | exact H2 |].
    intros x y Hx Hy. apply H; [now right | exact Hy].
  - apply Forall_app. split; [exact Hf|].
    apply Forall_forall. intros y Hy. apply H; [now left | exact Hy].
Qed.

Lemma StronglySorted_range : forall k lo hi,
  Z.to_nat (hi + 1 - lo) = k -> StronglySorted Z.lt (range lo hi).
Proof.
  induction k as [|k IH]; intros lo hi Hk.
  - rewrite range_nil by lia. constructor.
  - rewrite range_cons by lia. constructor; [apply IH; lia|].
    apply Forall_forall. intros v Hv. apply In_range in Hv. lia.
Qed.

(** X4. The numbered items stand in increasing order of page, for every
    current page, total and neighbourhood. *)
Theorem numbered_targets_increasing (current total neighbors : Z) :
  StronglySorted Z.lt
    (targets (numbered (buildPageList current total neighbors))).
Proof.
  rewrite numbered_targets.
  change (1 :: ?l) with ([1] ++ l).
  apply StronglySorted_app.
  - repeat constructor.
  - apply StronglySorted_app.
    + exact (StronglySorted_range _ _ _ eq_refl).
    + destruct (total >? 1); repeat constructor.
    + intros x y Hx Hy. apply In_range in Hx.
      destruct (Z.gtb_spec total 1); cbn [In] in Hy; lia.
  - intros x y Hx Hy. cbn [In] in Hx. rewrite in_app_iff, In_range in Hy.
    destruct (Z.gtb_spec total 1); cbn [In] in Hy; lia.
Qed.

End WindowFacts.
(** ** Rendering the three regions *)

Module RenderFacts.
Import JS DOM ResultsUIBuilder WindowSpec ResultsUIRender ViewSpec PaginationFacts.
Import NumberFacts.


Lemma fold_appendChild (xs : list Node) : forall tag cls attrs ch,
  fold_left (fun e c => appendChild c e) xs (Element tag cls attrs ch)
  = Element tag cls attrs (ch ++ xs).
Proof.
  induction xs as [|x xs IH]; intros tag cls attrs ch; cbn [fold_left].
  - now rewrite app_nil_r.
  - cbn [appendChild]. rewrite IH. now rewrite <- app_assoc.
Qed.

Lemma fold_appendChild_text (xs : list Node) s :
  fold_left (fun e c => appendChild c e) xs (Text s) = Text s.
Proof. induction xs as [|x xs IH]; [reflexivity | exact IH]. Qed.

Lemma fold_left_element (cs : list Control) (el : Node) :
  fold_left (fun e c => appendChild (element c) e) cs el
  = fold_left (fun e c => appendChild c e) (map element cs) el.
Proof.
  revert el. induction cs as [|c cs IH]; intros el; [reflexivity|].
  cbn [fold_left map]. apply IH.
Qed.

Lemma render_into (xs : list Node) (el : Node) :
  classList_remove "hide"
    (fold_left (fun e c => appendChild c e) xs (setTextContent "" el))
  = filled xs el.
Proof.
  destruct el as [tag cls attrs ch|s]; cbn [setTextContent String.eqb].
  - rewrite fold_appendChild. reflexivity.
  - rewrite fold_appendChild_text. reflexivity.
Qed.


Section WithHost.
Context {host : Host}.

Lemma renderPagination_filled (b : t) (el : Node) (items : list Num.Item) :
  paginationEl b = Some el ->
  Num.buildPageList (page b) (totalPages b) (Fin 1) = Some items ->
  renderPagination b
  = Some (Some (filled (map element (map (renderItem (onClick b)) items)) el),
          map (renderItem (onClick b)) items).
Proof.
  intros Hel Hitems. unfold renderPagination. rewrite Hel. cbv zeta.
  rewrite Hitems, fold_left_element, render_into. reflexivity.
Qed.


End WithHost.

Section WithHost.
Context {host : Host}.

Lemma renderHeader_filled (b : t) (el : Node) :
  headerEl b = Some el ->
  renderHeader b = Some (filled [headerParagraph b] el).
Proof.
  intros Hel. unfold renderHeader. rewrite Hel. cbv zeta.
  rewrite <- render_into. reflexivity.
Qed.

Lemma renderCards_filled (b : t) (el : Node) :
  resultsEl b = Some el ->
  renderCards b
  = bind (mapM renderCard (products b))
      (fun cards => Ok (cards, Some (filled cards el))).
Proof.
  intros Hel. unfold renderCards. rewrite Hel.
  destruct (mapM renderCard (products b)) as [cards|e]; cbn [bind];
    [|reflexivity].
  now rewrite render_into.
Qed.

End WithHost.

Section WithHost.
Context {host : Host}.

Lemma text_of_item (h : option Handler) (it : Num.Item) :
  innerText (element (renderItem h it)) = itemText it.
Proof.
  unfold renderItem, itemText.
  destruct (Num.type it); [|reflexivity].
  destruct (Num.label it) as [l|];
    destruct (flag (Num.current it)), (flag (Num.disabled it));
    cbn; try reflexivity;
    destruct (String.eqb_spec l ""); subst; cbn;
    rewrite ?ApiFacts.append_nil_r; reflexivity.
Qed.


Lemma dataPage_of_item (h : option Handler) (it : Num.Item) :
  Num.type it = Item.typePage ->
  getAttribute "data-page" (element (renderItem h it))
  = Some (match Num.page it with
          | Some p => NumberToString p
          | None => "undefined"
          end).
Proof.
  intros Hty. unfold renderItem. rewrite Hty.
  destruct (flag (Num.current it)), (flag (Num.disabled it)); reflexivity.
Qed.

Lemma listener_of_item (h : option Handler) (it : Num.Item) :
  listener (renderItem h it) = if clickable it then h else None.
Proof.
  unfold renderItem, clickable.
  destruct (Num.type it); [|reflexivity].
  now destruct (flag (Num.disabled it)).
Qed.


End WithHost.



Section WithHost.
Context {host : Host}.
Import Main ControllerFacts.

Lemma click_on_item doc net (st : ScrapingData) (t : Z) (it : Item.t) :
  (Main.totalPages st == inject_Z t)%Q ->
  1 <= Main.page st <= t ->
  In it (buildPageList (Main.page st) t 1) ->
  clickable (ofItem it) = true ->
  exists (p : Z) (l : string),
    Item.type it = Item.typePage
    /\ Item.page it = Some p
    /\ Item.label it = Some l
    /\ Main.page (fst (changePage doc net st l)) = p.
Proof.
  intros Ht Hc Hin Hclick.
  assert (Hnum : forall p b, 1 <= p ->
            exists (q : Z) (l : string),
              Item.type (Page p b) = Item.typePage
              /\ Item.page (Page p b) = Some q
              /\ Item.label (Page p b) = Some l
              /\ Main.page (fst (changePage doc net st l)) = q).
  { intros p b Hp. exists p, (StringZ p). repeat split.
    unfold changePage.
    destruct (LabelFacts.StringZ_not_control p) as [H1 H2].
    rewrite (selectPage_number st _ H1 H2), LabelFacts.parseInt_StringZ.
    destruct (Z.eqb_spec p (Main.page st)) as [E|E]; cbn [orb].
    - now rewrite E.
    - destruct (Z.eqb_spec p 0); [lia|]. now rewrite fst_fetchPage. }
  rewrite buildPageList_computeWindow in Hin. unfold computeWindow in Hin.
  cbv zeta in Hin. repeat rewrite in_app_iff in Hin.
  destruct Hin as [Hin|[Hin|[Hin|[Hin|[Hin|[Hin|Hin]]]]]].
  - (* Prev *)
    destruct Hin as [<-|[]]. unfold clickable, ofItem in Hclick.
    cbn [Prev Num.type Num.disabled Item.type Item.disabled flag] in Hclick.
    destruct (Z.leb_spec (Main.page st) 1) as [|Hgt]; [discriminate Hclick|].
    exists (clamp (Main.page st - 1) 1 t), "Prev". repeat split.
    unfold changePage. rewrite selectPage_prev.
    destruct (Z.gtb_spec (Main.page st) 1); [|lia].
    rewrite fst_fetchPage. unfold clamp. cbn [withPage Main.page]. lia.
  - destruct Hin as [<-|[]]. apply Hnum. lia.
  - destruct (_ >? 2); [|destruct Hin].
    destruct Hin as [<-|[]]. discriminate Hclick.
  - apply in_map_iff in Hin. destruct Hin as (p & <- & Hp).
    apply In_range in Hp. apply Hnum. lia.
  - destruct (_ <? _); [|destruct Hin].
    destruct Hin as [<-|[]]. discriminate Hclick.
  - destruct (Z.gtb_spec t 1); [|destruct Hin].
    destruct Hin as [<-|[]]. apply Hnum. lia.
  - (* Next *)
    destruct Hin as [<-|[]]. unfold clickable, ofItem in Hclick.
    cbn [Next Num.type Num.disabled Item.type Item.disabled flag] in Hclick.
    destruct (Z.geb_spec (Main.page st) t) as [|Hlt]; [discriminate Hclick|].
    exists (clamp (Main.page st + 1) 1 t), "Next". repeat split.
    unfold changePage. rewrite selectPage_next.
    assert (Hq : Qlt_bool (inject_Z (Main.page st)) (Main.totalPages st) = true).
    { apply BuilderFacts.Qlt_bool_true. rewrite Ht. rewrite <- Zlt_Qlt. lia. }
    rewrite Hq, fst_fetchPage. unfold clamp. cbn [withPage Main.page]. lia.
Qed.

End WithHost.

(** X7. Every control of the bar that reacts to a click leads where it
    says: when the bar is rendered for the controller's state (current page
    within [1, totalPages]) and the click handler is [changePage], clicking a
    control with a listener leaves the controller on the page written in the
    control's [data-page]. *)
Theorem click_reaches_target (host : Host) (doc : Main.Document)
        (net : string -> ApiModel.FetchOutcome) (st : Main.ScrapingData)
        (b : t) (el : Node) (total : Z) (h : Handler) :
  (Main.totalPages st == inject_Z total)%Q ->
  1 <= Main.page st <= total ->
  paginationEl b = Some el ->
  page b = ofZ (Main.page st) ->
  totalPages b = ofZ total ->
  onClick b = Some h ->
  exists (el' : Node) (controls : list Control),
    renderPagination b = Some (Some el', controls)
    /\ Forall (fun ctl =>
                 listener ctl = Some h ->
                 exists p : Z,
                   getAttribute "data-page" (element ctl) = Some (StringZ p)
                   /\ Main.page
                        (fst (Main.changePage doc net st (innerText (element ctl))))
                      = p)
         controls.
Proof.
  intros Ht Hc Hel Hp Htot Hh.
  assert (Hitems : Num.buildPageList (page b) (totalPages b) (Fin 1)
                   = Some (map ofItem (buildPageList (Main.page st) total 1)))
    by (rewrite Hp, Htot; exact (buildPageList_integers _ _ 1)).
  rewrite (renderPagination_filled b el _ Hel Hitems).
  eexists. eexists. split; [reflexivity|].
  apply Forall_forall. intros ctl Hctl. apply in_map_iff in Hctl.
  destruct Hctl as (nit & <- & Hnit). apply in_map_iff in Hnit.
  destruct Hnit as (it & <- & Hit). rewrite listener_of_item, Hh.
  intros Hl. assert (Hclick : clickable (ofItem it) = true)
    by (destruct (clickable (ofItem it)); [reflexivity | discriminate Hl]).
  destruct (click_on_item doc net st total it Ht Hc Hit Hclick)
    as (p & l & Hty & Hpage & Hlabel & Hgo).
  exists p. rewrite (dataPage_of_item _ (ofItem it) Hty).
  unfold ofItem at 1. cbn [Num.page]. rewrite Hpage. cbn [option_map].
  rewrite NumberToString_ofZ. split; [reflexivity|].
  rewrite text_of_item. unfold itemText, ofItem. cbn [Num.type Num.label].
  now rewrite Hty, Hlabel.
Qed.

Lemma click_reaches_target_witness :
  let st := Main.mkData "laptop" 5 (Some 1) 10 in
  let b := onPageClick (Some "changePage")
             (setTotalPages (host := exampleHost) (VNum (ofZ 10))
                (setPage (host := exampleHost) (VNum (ofZ 5))
                   (new None (Some (createElement "nav")) None))) in
  (Main.totalPages st == inject_Z 10)%Q
  /\ 1 <= Main.page st <= 10
  /\ exists (el' : Node) (controls : list Control),
       renderPagination (host := exampleHost) b = Some (Some el', controls)
       /\ Forall (fun ctl =>
                    listener ctl = Some "changePage" ->
                    exists p : Z,
                      getAttribute "data-page" (element ctl) = Some (StringZ p)
                      /\ Main.page
                           (fst (Main.changePage (host := exampleHost)
                                   (Main.mkDocument "laptop" "1" true None None None)
                                   (fun _ => ApiModel.Aborted) st
                                   (innerText (element ctl))))
                         = p)
            controls.
Proof.
  split; [reflexivity|]. split; [cbn; lia|].
  exact (click_reaches_target exampleHost
           (Main.mkDocument "laptop" "1" true None None None)
           (fun _ => ApiModel.Aborted) (Main.mkData "laptop" 5 (Some 1) 10)
           (onPageClick (Some "changePage")
              (setTotalPages (host := exampleHost) (VNum (ofZ 10))
                 (setPage (host := exampleHost) (VNum (ofZ 5))
                    (new None (Some (createElement "nav")) None))))
           (createElement "nav") 10 "changePage"
           (Qeq_refl _) ltac:(cbn; lia) eq_refl eq_refl eq_refl eq_refl).
Defined.

Lemma mapM_length {A B : Type} (f : A -> result B) (l : list A) :
  forall ys, mapM f l = Ok ys -> length ys = length l.
Proof.
  induction l as [|x l IH]; intros ys H; cbn [mapM] in H.
  - now injection H as <-.
  - destruct (f x) as [y|e]; cbn [bind] in H; [|discriminate H].
    destruct (mapM f l) as [zs|e]; cbn [bind] in H; [|discriminate H].
    injection H as <-. cbn [length]. now rewrite (IH zs eq_refl).
Qed.

Lemma mapM_throws {A B : Type} (f : A -> result B) (l : list A) (x : A) :
  In x l -> (exists e, f x = Throw e) -> exists e, mapM f l = Throw e.
Proof.
  induction l as [|y l IH]; intros Hin Hx; [destruct Hin|].
  cbn [mapM]. destruct Hin as [->|Hin].
  - destruct Hx as (e & ->). now exists e.
  - destruct (f y) as [z|e]; cbn [bind]; [|now exists e].
    destruct (IH Hin Hx) as (e & ->). now exists e.
Qed.



(** X9. On success the grid holds exactly one card per product, in place of
    whatever it held before, and is no longer hidden; an empty product list
    gives an empty grid, not an error. *)
Theorem renderCards_grid (host : Host) (b : t) (tag : string)
        (cls : list string) (attrs : list (string * string))
        (old cards : list Node) (r : option Node) :
  resultsEl b = Some (Element tag cls attrs old) ->
  renderCards b = Ok (cards, r) ->
  length cards = length (products b)
  /\ r = Some (Element tag (hideless cls) attrs cards)
  /\ (products b = [] -> cards = []).
Proof.
  intros Hel Hr. rewrite (renderCards_filled b _ Hel) in Hr.
  destruct (mapM renderCard (products b)) as [cs|e] eqn:Hm;
    cbn [bind] in Hr; [|discriminate Hr].
  injection Hr as <- <-. split; [exact (mapM_length _ _ _ Hm)|].
  split; [reflexivity|].
  intros Hnil. rewrite Hnil in Hm. now injection Hm as <-.
Qed.

Lemma renderCards_grid_witness :
  let b := setProducts
             (VArr [VObj [("title", VStr "Mouse")]; VObj []])
             (new None None (Some (Element "div" ["grid"; "hide"] [] [Text "old"]))) in
  exists cards r,
    renderCards (host := exampleHost) b = Ok (cards, r)
    /\ length cards = 2%nat
    /\ r = Some (Element "div" ["grid"] [] cards).
Proof.
  cbv zeta. do 2 eexists. split; [reflexivity|].
  pose proof (renderCards_grid exampleHost
                (setProducts
                   (VArr [VObj [("title", VStr "Mouse")]; VObj []])
                   (new None None
                      (Some (Element "div" ["grid"; "hide"] [] [Text "old"]))))
                "div" ["grid"; "hide"] [] [Text "old"] _ _ eq_refl eq_refl)
    as (H1 & H2 & _).
  split; [exact H1 | exact H2].
Defined.

(** X10. One product that is [null] or [undefined] makes [#renderCards]
    throw as soon as there is a results container; without a container
    nothing is read and nothing is thrown. *)
Theorem null_product_throws (host : Host) (b : t) (p : value) :
  In p (products b) -> nullish p = true ->
  match resultsEl b with
  | Some _ => exists e, renderCards b = Throw e
  | None => renderCards b = Ok ([], None)
  end.
Proof.
  intros Hin Hnull. unfold renderCards.
  destruct (resultsEl b) as [el|]; [|reflexivity].
  destruct (mapM_throws renderCard (products b) p Hin) as (e & ->).
  - destruct p; try discriminate Hnull; eexists; reflexivity.
  - now exists e.
Qed.

Lemma null_product_throws_witness :
  let b := setProducts
             (VArr [VObj [("title", VStr "Mouse")]; VNull])
             (new None None (Some (createElement "div"))) in
  In VNull (products b)
  /\ exists e, renderCards (host := exampleHost) b = Throw e.
Proof.
  cbv zeta. split; [right; left; reflexivity|].
  exact (null_product_throws exampleHost
           (setProducts
              (VArr [VObj [("title", VStr "Mouse")]; VNull])
              (new None None (Some (createElement "div"))))
           VNull (or_intror (or_introl eq_refl)) eq_refl).
Defined.

(** X21. [#renderHeader] replaces the content of the header container by
    one paragraph (the icon, the label followed by a space, and the summary
    in a [sup]); the container keeps its tag, its attributes and every
    class but [hide]. *)
Theorem header_replaced (host : Host) (b : t) (tag : string)
        (cls : list string) (attrs : list (string * string)) (old : list Node) :
  headerEl b = Some (Element tag cls attrs old) ->
  exists img sup : Node,
    renderHeader b
    = Some (Element tag (hideless cls) attrs
              [Element "p" [] []
                 [img; Text (ToString (label b) ++ " ")%string; sup]])
    /\ tagOf img = "img"
    /\ getAttribute "alt" img = Some "shopping-cart"
    /\ tagOf sup = "sup"
    /\ innerText sup = supText b.
Proof.
  intros Hel. rewrite (renderHeader_filled b _ Hel).
  eexists. eexists. split; [reflexivity|]. repeat split.
  destruct (String.eqb_spec (supText b) "") as [E|E]; cbn [innerText].
  - symmetry. exact E.
  - apply ApiFacts.append_nil_r.
Qed.

Lemma header_replaced_witness :
  let b := setCount (host := exampleHost) (VNum (ofZ 24))
             (setKeyword (VStr "laptop")
                (new (Some (Element "div" ["resultsHeader"; "hide"] []
                              [Text "old"])) None None)) in
  exists img sup : Node,
    renderHeader (host := exampleHost) b
    = Some (Element "div" ["resultsHeader"] []
              [Element "p" [] [] [img; Text "Amazon Products "; sup]])
    /\ innerText sup = supText (host := exampleHost) b.
Proof.
  cbv zeta.
  destruct (header_replaced exampleHost
              (setCount (host := exampleHost) (VNum (ofZ 24))
                 (setKeyword (VStr "laptop")
                    (new (Some (Element "div" ["resultsHeader"; "hide"] []
                                  [Text "old"])) None None)))
              "div" ["resultsHeader"; "hide"] [] [Text "old"] eq_refl)
    as (img & sup & H & _ & _ & _ & Hs).
  exists img, sup. split; [exact H | exact Hs].
Defined.



End RenderFacts.

(** ** Cards, whatever the product *)

Module CardRenderFacts.
Import JS DOM StateSpec CardBuilder.

(** An icon of the star list that [build()] can read: a string. *)
Lemma mapM_starSpan (host : Host) (icons : list value) :
  Forall (fun v => isString v = true) icons ->
  exists spans, mapM starSpan icons = Ok spans.
Proof.
  induction 1 as [|v l Hv _ (spans & IH)]; cbn [mapM].
  - now exists [].
  - destruct v; try discriminate Hv. unfold starSpan at 1.
    cbn [includesHalf bind]. rewrite IH. cbn [bind]. eexists. reflexivity.
Qed.

(** When some callback throws, the whole [map] throws what one of the
    callbacks throws. *)
Lemma mapM_first_throw {A B : Type} (f : A -> result B) (l : list A) (x : A) :
  In x l -> (exists e, f x = Throw e) ->
  exists y e, In y l /\ f y = Throw e /\ mapM f l = Throw e.
Proof.
  induction l as [|y l IH]; intros Hin Hx; [destruct Hin|].
  cbn [mapM]. destruct (f y) as [z|e] eqn:Hy; cbn [bind].
  - destruct Hin as [->|Hin]; [destruct Hx as (e & Hx); congruence|].
    destruct (IH Hin Hx) as (y' & e & Hy' & He & ->).
    exists y', e. repeat split; [now right | exact He].
  - exists y, e. repeat split; [now left | exact Hy].
Qed.

(** [setStars] on an argument that is not an array. *)
Lemma setStars_number (host : Host) (b : CardBuilder.t) (v : value) :
  isArray v = false ->
  setStars v b
  = match ToNumber v with
    | Fin q =>
        let r := Math_min (Fin 5) (Math_max (Fin 0) (Fin q)) in
        let full := Math_floor r in
        let icons := Array_fill full (VStr _FULL) in
        withStars
          (if lt r (Fin 5) && negb (strictEq r full)
           then push icons (VStr _HALF) else icons)
          (setRating (VNum (Fin q)) b)
    | _ => withStars [] b
    end.
Proof.
  intros Hv. unfold setStars.
  destruct v; try discriminate Hv; destruct (ToNumber _); reflexivity.
Qed.

Lemma Forall_repeat {A : Type} (P : A -> Prop) (x : A) (n : nat) :
  P x -> Forall P (repeat x n).
Proof. intros Hx. induction n; cbn; auto. Qed.

(** What [#renderCards] relies on after [setStars(p.rating)]: string
    icons, a rating that is still there, the review count untouched. *)
Lemma setStars_for_card (host : Host) (b : CardBuilder.t) (v : value) :
  isArray v = false -> nullish (rating b) = false ->
  nullish (rating (setStars v b)) = false
  /\ Forall (fun i => isString i = true) (stars (setStars v b))
  /\ reviewCount (setStars v b) = reviewCount b.
Proof.
  intros Harr Hr. rewrite (setStars_number host b v Harr).
  destruct (ToNumber v) as [| | |q];
    try (split; [exact Hr | split; [constructor | reflexivity]]).
  cbv zeta. destruct (StarsFacts.clamp_code q) as (r & -> & _).
  cbn [Math_floor Array_fill withStars setRating stars rating reviewCount
       nullish].
  split; [reflexivity|]. split; [|reflexivity].
  destruct (_ && _); unfold push; rewrite ?Forall_app; repeat split;
    try (apply Forall_repeat; reflexivity).
  repeat constructor.
Qed.

(** X11. [setStars] touches the star list and, for an argument that is not
    an array and converts to a finite number, the rating; image,
    description, review count and link are never changed, and a rating that
    is not finite leaves the previous rating in place. The generated list
    has at most five icons, each the full or the half star. *)
Theorem setStars_fields (host : Host) (b : CardBuilder.t) (arg : value) :
  imageSrc (setStars arg b) = imageSrc b
  /\ description (setStars arg b) = description b
  /\ reviewCount (setStars arg b) = reviewCount b
  /\ link (setStars arg b) = link b
  /\ rating (setStars arg b)
     = (if negb (isArray arg) && isFiniteNumber (ToNumber arg)
        then VNum (ToNumber arg) else rating b)
  /\ (isArray arg = false ->
      (length (stars (setStars arg b)) <= 5)%nat
      /\ Forall (fun v => v = VStr _FULL \/ v = VStr _HALF)
           (stars (setStars arg b))).
Proof.
  destruct (isArray arg) eqn:Harr.
  - destruct arg; try discriminate Harr. cbn. repeat split; discriminate.
  - rewrite (setStars_number host b arg Harr). cbn [negb andb].
    destruct (ToNumber arg) as [| | |q]; cbn [isFiniteNumber Number_isFinite];
      try (repeat split; try (cbn; lia); constructor).
    cbv zeta. destruct (StarsFacts.clamp_code q) as (r & -> & Hr).
    cbn [Math_floor Array_fill lt strictEq withStars setRating stars
         imageSrc description reviewCount link rating].
    rewrite Qfloor_Z.
    do 5 (split; [reflexivity|]). intros _.
    pose proof (StarsFacts.clampQ_le_5 q) as Hle. rewrite <- Hr in Hle.
    assert (H5 : Qfloor r <= 5).
    { apply Qfloor_resp_le in Hle. exact Hle. }
    destruct (Qlt_bool r 5) eqn:Elt; cbn [andb].
    + apply BuilderFacts.Qlt_bool_true in Elt.
      assert (H4 : Qfloor r < 5).
      { rewrite Zlt_Qlt. apply Qle_lt_trans with r; [apply Qfloor_le | exact Elt]. }
      destruct (negb _); unfold push; rewrite ?length_app, repeat_length;
        cbn [length]; (split; [lia|]);
        rewrite ?Forall_app; repeat split;
        try (apply Forall_repeat; now left);
        constructor; [now right | constructor].
    + rewrite repeat_length. split; [lia|]. apply Forall_repeat. now left.
Qed.

Section WithHost.
Context {host : Host}.

(** The card of a builder with a rating, string icons and a numeric review
    count. *)
Lemma build_full_card (b : CardBuilder.t) (n : number) :
  nullish (rating b) = false ->
  Forall (fun v => isString v = true) (stars b) ->
  reviewCount b = VNum n ->
  exists score reviews,
    build b
    = Ok (Element "div" ["card"] []
            [ Element "img" []
                [("src", ToString (imageSrc b));
                 ("alt", ("product image " ++ ToString (description b))%string)] [];
              setTextContent (if nullish (description b) then EmptyString
                              else ToString (description b))
                (createElement "p");
              score; reviews;
              Element "hr" [] [] [];
              Element "a" [] [("href", ToString (link b)); ("target", "_blank")]
                [ Element "img" [] [("src", "./link.svg"); ("alt", "link-icon")] [];
                  Text " View on Amazon" ] ])
    /\ isBlock "score" score = true
    /\ isBlock "reviews" reviews = true.
Proof.
  intros Hr Hs Hc. unfold build. rewrite Hr, Hc.
  destruct (mapM_starSpan host (stars b) Hs) as (spans & ->).
  cbn [negb bind toLocaleString].
  assert (Hscore : forall l sc, tagOf sc = "div" -> hasClass "score" sc = true ->
            isBlock "score" (fold_left (fun sc sp => appendChild sp sc) l sc) = true).
  { induction l as [|sp l IH]; intros sc Ht Hc'; cbn [fold_left].
    - unfold isBlock. now rewrite Ht, Hc'.
    - apply IH; destruct sc; cbn in *; auto. }
  eexists. eexists. split; [reflexivity|]. split; [|reflexivity].
  match goal with
  | |- isBlock _ (appendChild ?x ?sc) = true =>
      assert (H := Hscore spans (classList_add "score" (createElement "div"))
                     eq_refl eq_refl);
      destruct sc; [exact H | discriminate H]
  end.
Qed.

End WithHost.

(** X12. A product that is an object whose [rating] is not an array always
    gives a card, whatever its other properties hold or lack: a
    [div.card] tagged with the product's [asin] (the empty string when it
    has none) that holds the image, the title, the score and the reviews
    divisions, the divider and the link, in this order. *)
Theorem renderCard_object (host : Host) (props : list (string * value)) :
  isArray (lookup "rating" props) = false ->
  exists children : list Node,
    ResultsUIBuilder.renderCard (VObj props)
    = Ok (Element "div" ["card"]
            [("data-asin", ToString (or_ (lookup "asin" props) (VStr "")))]
            children)
    /\ map tagOf children = ["img"; "p"; "div"; "div"; "hr"; "a"].
Proof.
  intros Harr. unfold ResultsUIBuilder.renderCard. cbn [get bind].
  match goal with
  | |- context [build ?b] =>
      assert (Hb : exists n, nullish (rating b) = false
                 /\ Forall (fun v => isString v = true) (stars b)
                 /\ reviewCount b = VNum n)
  end.
  { destruct (nullish (lookup "rating" props)); cbn [negb].
    - eexists. repeat split. constructor.
    - destruct (setStars_for_card host
                  (setReviewCount
                     (VNum (ToNumber (coalesce (lookup "reviews" props)
                                        (VNum (Fin 0)))))
                     (setRating (VNum (ToNumber (lookup "rating" props)))
                        (setLink (or_ (lookup "url" props) (VStr "#"))
                           (setDescription
                              (or_ (lookup "title" props)
                                 (VStr "Untitled product"))
                              (setImage
                                 (or_ (lookup "image" props)
                                    (VStr "./example.jpg")) new)))))
                  (lookup "rating" props) Harr eq_refl)
        as (Hrt & Hicons & Hrc).
      eexists. split; [exact Hrt|]. split; [exact Hicons|].
      rewrite Hrc. reflexivity. }
  destruct Hb as (n & Hr & Hs & Hc).
  destruct (build_full_card _ n Hr Hs Hc) as (score & reviews & -> & Hsc & Hrv).
  cbn [bind]. unfold isBlock in Hsc, Hrv.
  apply andb_true_iff in Hsc, Hrv. destruct Hsc as [Hsc _], Hrv as [Hrv _].
  apply String.eqb_eq in Hsc, Hrv.
  destruct (truthy (lookup "title" props)); cbn;
    (eexists; split; [reflexivity|]); cbn; now rewrite Hsc, Hrv.
Qed.

Lemma renderCard_object_witness :
  isArray (lookup "rating" [("rating", VStr "n/a"); ("asin", VStr "B01")]) = false
  /\ exists children : list Node,
       ResultsUIBuilder.renderCard (host := exampleHost)
         (VObj [("rating", VStr "n/a"); ("asin", VStr "B01")])
       = Ok (Element "div" ["card"] [("data-asin", "B01")] children)
       /\ map tagOf children = ["img"; "p"; "div"; "div"; "hr"; "a"].
Proof.
  split; [reflexivity|].
  exact (renderCard_object exampleHost
           [("rating", VStr "n/a"); ("asin", VStr "B01")] eq_refl).
Defined.

(** X13. A product whose [rating] is an array has it taken as the list of
    star icons, and an icon in it that is neither a string nor an array (a
    number, [null], an object) makes the card fail with a TypeError:
    [starSrc.includes] cannot be called on it. *)
Theorem bad_star_icon_throws (host : Host) (props : list (string * value))
        (icons : list value) (icon : value) :
  lookup "rating" props = VArr icons ->
  In icon icons ->
  isString icon = false -> isArray icon = false ->
  exists msg : string,
    ResultsUIBuilder.renderCard (VObj props) = Throw (TypeError msg).
Proof.
  intros Hr Hin Hs Ha.
  assert (Hicon : exists e, starSpan icon = Throw e).
  { unfold starSpan. destruct icon; try discriminate; eexists; reflexivity. }
  destruct (mapM_first_throw starSpan icons icon Hin Hicon)
    as (y & e & _ & Hy & Hmap).
  assert (He : exists msg, e = TypeError msg).
  { unfold starSpan in Hy. destruct y; cbn in Hy; try discriminate Hy;
      injection Hy as <-; eexists; reflexivity. }
  destruct He as (msg & ->). exists msg.
  unfold ResultsUIBuilder.renderCard.
  cbn [get bind]. rewrite Hr. cbn [nullish negb setStars].
  unfold build. cbn [rating withStars setReviewCount setRating negb nullish stars].
  rewrite Hmap. reflexivity.
Qed.

Lemma bad_star_icon_throws_witness :
  let props := [("title", VStr "Mouse");
                ("rating", VArr [VStr "./star.svg"; VNum (Fin 4)])] in
  lookup "rating" props = VArr [VStr "./star.svg"; VNum (Fin 4)]
  /\ exists msg : string,
       ResultsUIBuilder.renderCard (host := exampleHost) (VObj props)
       = Throw (TypeError msg).
Proof.
  cbv zeta. split; [reflexivity|].
  exact (bad_star_icon_throws exampleHost
           [("title", VStr "Mouse");
            ("rating", VArr [VStr "./star.svg"; VNum (Fin 4)])]
           [VStr "./star.svg"; VNum (Fin 4)] (VNum (Fin 4))
           eq_refl (or_intror (or_introl eq_refl)) eq_refl eq_refl).
Defined.

(** X14. The guard of [build()]: a card that is built has the rating block
    exactly when the builder's rating is neither [null] nor [undefined];
    and a builder whose rating is [null] always builds, its star list never
    being read, into the four children image, description, divider and
    link. *)
Theorem build_rating_guard (host : Host) (b : CardBuilder.t) :
  (forall card : Node,
     build b = Ok card -> hasRatingBlock card = negb (nullish (rating b)))
  /\ (nullish (rating b) = true ->
      exists card : Node,
        build b = Ok card
        /\ map tagOf (childrenOf card) = ["img"; "p"; "hr"; "a"]).
Proof.
  split.
  - intros card. unfold build.
    destruct (nullish (rating b)); cbn [negb bind].
    + intros H. injection H as <-. reflexivity.
    + destruct (mapM starSpan (stars b)) as [spans|e]; cbn [bind];
        [|discriminate].
      destruct (toLocaleString (reviewCount b)) as [s|e]; cbn [bind];
        [|discriminate].
      intros H. injection H as <-.
      unfold hasRatingBlock, hasReviewsBlock. cbn.
      now rewrite !orb_true_r.
  - intros Hr. unfold build. rewrite Hr. cbn. eexists. split; reflexivity.
Qed.

End CardRenderFacts.

(** ** The fetch client *)

Module ClientFacts.
Import JS ApiModel ResultsUIRender ViewSpec ApiFacts.

(** X15. [scrape] issues at most one request. Its promise resolves, to the
    parsed body, exactly when the keyword is accepted and the response to
    that one request has a status within 200..299 and a JSON body; a status
    outside that range rejects with the error [HTTP <status>] whatever the
    body is. *)
Theorem scrape_resolves_iff (host : Host) (keyword page pages : value)
        (net : string -> FetchOutcome) (json : value) :
  let url := (API_BASE ++ "/scrape?" ++ query keyword page pages)%string in
  (length (fst (scrape keyword page pages net)) <= 1)%nat
  /\ (snd (scrape keyword page pages net) = Ok json
      <-> truthy keyword = true
          /\ trim (ToString keyword) <> ""
          /\ exists status : Z,
               200 <= status <= 299 /\ net url = Response status (Some json))
  /\ (forall (status : Z) (body : option value),
        truthy keyword = true -> trim (ToString keyword) <> "" ->
        net url = Response status body -> ~ 200 <= status <= 299 ->
        snd (scrape keyword page pages net)
        = Throw (Err "Error" ("HTTP " ++ StringZ status)%string)).
Proof.
  intros url. unfold scrape. fold url.
  destruct (truthy keyword) eqn:Ht; cbn [negb orb].
  2:{ cbn. repeat split; try lia; try discriminate;
        try (intros (H & _); discriminate H). }
  assert (Hs : truthy (VStr (trim (ToString keyword)))
               = negb (trim (ToString keyword) =? "")%string) by reflexivity.
  rewrite Hs. clear Hs.
  destruct (String.eqb_spec (trim (ToString keyword)) "") as [E|E]; cbn [negb].
  { cbn. repeat split; try lia; try discriminate;
      try (intros (_ & H & _); now elim H); try (intros; contradiction). }
  cbn [fst snd length]. split; [lia|]. split; [split|].
  - destruct (net url) as [| |status body]; try discriminate.
    destruct (Z.leb_spec 200 status), (Z.leb_spec status 299); cbn;
      try discriminate.
    destruct body as [j|]; [|discriminate].
    intros Hj. injection Hj as ->. repeat split; auto.
    exists status. split; [lia | reflexivity].
  - intros (_ & _ & status & Hs & ->).
    destruct (Z.leb_spec 200 status), (Z.leb_spec status 299); try lia.
    reflexivity.
  - intros status body _ _ -> Hs.
    destruct (Z.leb_spec 200 status), (Z.leb_spec status 299); try lia;
      reflexivity.
Qed.

Lemma countChar_app (c : ascii) (a b : string) :
  countChar c (a ++ b) = (countChar c a + countChar c b)%nat.
Proof.
  induction a as [|d a IH]; cbn [append countChar]; [reflexivity|].
  rewrite IH. lia.
Qed.

Lemma encodeUnit_chars (c : ascii) :
  forallb isQueryChar (list_ascii_of_string (encodeUnit c)) = true.
Proof.
  destruct c as [[] [] [] [] [] [] [] []]; vm_compute; reflexivity.
Qed.

Lemma list_ascii_app (a b : string) :
  list_ascii_of_string (a ++ b)
  = list_ascii_of_string a ++ list_ascii_of_string b.
Proof.
  induction a as [|d a IH]; cbn; [reflexivity | now rewrite IH].
Qed.

Lemma urlencode_chars (s : string) :
  forallb isQueryChar (list_ascii_of_string (urlencode s)) = true.
Proof.
  induction s as [|c s IH]; cbn [urlencode]; [reflexivity|].
  now rewrite list_ascii_app, forallb_app, encodeUnit_chars, IH.
Qed.

Lemma countChar_safe (c : ascii) (s : string) :
  isQueryChar c = false ->
  forallb isQueryChar (list_ascii_of_string s) = true ->
  countChar c s = 0%nat.
Proof.
  intros Hc. induction s as [|d s IH]; cbn; [reflexivity|].
  intros H. apply andb_true_iff in H. destruct H as [Hd Hs].
  destruct (Ascii.eqb_spec d c) as [->|_]; [congruence|].
  now rewrite (IH Hs).
Qed.

(** X16. Whatever the keyword, the page and the page count hold, the query
    string is made of letters, digits, [*-._+%] and its own separators
    only, and the separators come from its structure alone: one [=] per
    parameter sent and one [&] between two parameters. No character of a
    keyword can add or split a parameter. *)
Theorem query_separators (host : Host) (keyword page pages : value) :
  let sent := ((if nullish page then 0 else 1)
               + (if nullish pages then 0 else 1))%nat in
  countChar "&" (query keyword page pages) = sent
  /\ countChar "=" (query keyword page pages) = S sent
  /\ countChar " " (query keyword page pages) = 0%nat
  /\ countChar "#" (query keyword page pages) = 0%nat
  /\ countChar "?" (query keyword page pages) = 0%nat
  /\ forall s : string,
       forallb isQueryChar (list_ascii_of_string (urlencode s)) = true.
Proof.
  intros sent. subst sent. rewrite query_shape.
  assert (H : forall c s, isQueryChar c = false ->
            countChar c (urlencode s) = 0%nat).
  { intros c s Hc. apply countChar_safe; [exact Hc | apply urlencode_chars]. }
  repeat split; try apply urlencode_chars;
    destruct (nullish page), (nullish pages);
    rewrite ?countChar_app, ?H by reflexivity; reflexivity.
Qed.

End ClientFacts.

(** ** The handlers, whatever the network answers *)

Module HandlerFacts.
Import JS ApiModel Main ResultsUIRender ViewSpec ApiFacts ControllerFacts.

Lemma buttonStates_app (l1 l2 : list Effect) :
  buttonStates (l1 ++ l2) = buttonStates l1 ++ buttonStates l2.
Proof. apply flat_map_app. Qed.

Lemma buttonStates_showInfo doc c : buttonStates (showInfo doc c) = [].
Proof. unfold showInfo. now destruct (infoCard doc). Qed.

Lemma buttonStates_hideInfo doc : buttonStates (hideInfo doc) = [].
Proof. unfold hideInfo. now destruct (infoCard doc). Qed.

Lemma buttonStates_requests urls : buttonStates (map Request urls) = [].
Proof. induction urls; [reflexivity | exact IHurls]. Qed.

Ltac button_states :=
  cbn [snd]; unfold catch;
  rewrite ?buttonStates_app, ?buttonStates_showInfo, ?buttonStates_hideInfo,
    ?buttonStates_requests; reflexivity.

Section WithHost.
Context {host : Host}.

Lemma buttonStates_fetchPage doc net st :
  buttonStates (snd (fetchPage doc net st)) = [true; false].
Proof.
  unfold fetchPage.
  destruct (scrape _ _ _ net) as [urls [results|e]]; [|button_states].
  destruct (updateResultsUI doc st results) as [b [[cards el]|e]];
    button_states.
Qed.

Lemma selectPage_moves st label st' :
  selectPage st label = Some st' ->
  keyword st' = keyword st /\ pages st' = pages st
  /\ totalPages st' = totalPages st /\ page st' <> page st.
Proof.
  unfold selectPage.
  destruct (existsb _ _).
  - destruct (_ && _).
    + intros H. injection H as <-. cbn. repeat split. lia.
    + destruct (_ && _); [|discriminate].
      intros H. injection H as <-. cbn. repeat split. lia.
  - destruct (parseInt label None) as [n|]; [|discriminate].
    destruct (Z.eqb_spec n (page st)); cbn [negb]; [discriminate|].
    destruct (n =? 0); [discriminate|].
    intros H. injection H as <-. cbn. repeat split. assumption.
Qed.

End WithHost.

(** X17. Every run of a handler leaves the submit button enabled: either
    the handler returns before touching it (blank keyword, ignored click),
    or it disables it once and re-enables it once, in this order, however
    the fetch and the rendering end. *)
Theorem button_reenabled (host : Host) (doc : Document)
        (net : string -> FetchOutcome) (st : ScrapingData) (label : string) :
  (buttonStates (snd (scrapeAmazon doc net st))
   = if truthy (VStr (trim (keywordInput_value doc)))
     then [true; false] else [])
  /\ (buttonStates (snd (changePage doc net st label))
      = match selectPage st label with
        | Some _ => [true; false]
        | None => []
        end).
Proof.
  split.
  - unfold scrapeAmazon.
    destruct (truthy (VStr (trim (keywordInput_value doc)))); cbn [negb].
    + destruct (scrape _ _ _ net) as [urls [results|e]]; [|button_states].
      match goal with
      | |- context [updateResultsUI ?d ?s ?r] =>
          destruct (updateResultsUI d s r) as [b [[cards el]|e]]
      end; button_states.
    + cbn [snd]. apply buttonStates_showInfo.
  - unfold changePage. destruct (selectPage st label) as [st'|];
      [apply buttonStates_fetchPage | reflexivity].
Qed.

(** X18. A click either does nothing at all (same state, no effect) or
    moves to another page: [changePage] never fetches the page the state
    is already on, and never changes the keyword, the requested page count
    or the known total. *)
Theorem changePage_moves_or_ignores (host : Host) (doc : Document)
        (net : string -> FetchOutcome) (st : ScrapingData) (label : string) :
  keyword (fst (changePage doc net st label)) = keyword st
  /\ pages (fst (changePage doc net st label)) = pages st
  /\ totalPages (fst (changePage doc net st label)) = totalPages st
  /\ (changePage doc net st label = (st, [])
      \/ (page (fst (changePage doc net st label)) <> page st
          /\ buttonStates (snd (changePage doc net st label)) = [true; false])).
Proof.
  unfold changePage. destruct (selectPage st label) as [st'|] eqn:E.
  - destruct (selectPage_moves st label st' E) as (Hk & Hp & Ht & Hne).
    rewrite fst_fetchPage. repeat split; auto.
    right. split; [exact Hne | apply buttonStates_fetchPage].
  - repeat split. now left.
Qed.

(** X19. A submit whose fetch succeeds: the state holds the trimmed
    keyword, page 1, the parsed page count and the total the response
    names (1 when it names none, or one that is not a finite number); one
    request was issued; and the builder handed to [build()] shows that
    keyword on page 1, with [changePage] as the click handler and a
    well-formed state. When the rendering does not throw, the message is
    hidden and the effects end there. *)
Theorem successful_submit (host : Host) (doc : Document)
        (net : string -> FetchOutcome) (st : ScrapingData)
        (status : Z) (results : value) :
  let kw := trim (keywordInput_value doc) in
  let pagesVal := parseInt (pageSelect_value doc) (Some 10) in
  let url := (API_BASE ++ "/scrape?"
              ++ query (VStr kw) (VNum (ofZ 1)) (pagesArg pagesVal))%string in
  let st' := mkData kw 1 pagesVal
               (match getOpt results "totalPages" with
                | VNum (Fin q) => q
                | _ => 1%Q
                end) in
  let b := fst (updateResultsUI doc st' results) in
  kw <> "" ->
  net url = Response status (Some results) ->
  200 <= status <= 299 ->
  fst (scrapeAmazon doc net st) = st'
  /\ requestsOf (snd (scrapeAmazon doc net st)) = [url]
  /\ ResultsUIBuilder.keyword b = VStr kw
  /\ ResultsUIBuilder.page b = Fin 1
  /\ ResultsUIBuilder.onClick b = Some "changePage"
  /\ StateSpec.wellFormed b
  /\ (forall cards el,
        ResultsUIBuilder.build b = Ok (cards, el) ->
        snd (scrapeAmazon doc net st)
        = [ButtonDisabled true; Request url; Rendered b cards]
            ++ hideInfo doc ++ [ButtonDisabled false]).
Proof.
  intros kw pagesVal url st' b Hkw Hnet Hstatus.
  assert (Hrun : scrapeAmazon doc net st
                 = match updateResultsUI doc st' results with
                   | (b, Ok (cards, _)) =>
                       (st', [ButtonDisabled true; Request url]
                               ++ [Rendered b cards] ++ hideInfo doc
                               ++ [ButtonDisabled false])
                   | (_, Throw e) =>
                       (st', [ButtonDisabled true; Request url]
                               ++ catch doc e ++ [ButtonDisabled false])
                   end).
  { unfold scrapeAmazon. fold kw. fold pagesVal.
    assert (Ht : truthy (VStr kw) = true).
    { destruct kw; [now elim Hkw | reflexivity]. }
    rewrite Ht. cbn [negb keyword page pages Main.totalPages].
    unfold scrape. rewrite Ht. cbn [ToString negb orb truthy].
    assert (Hne : (trim kw =? "")%string = false).
    { apply String.eqb_neq. exact (trim_trim _ Hkw). }
    rewrite Hne. cbn [negb]. fold url. rewrite Hnet.
    destruct (Z.leb_spec 200 status), (Z.leb_spec status 299); try lia.
    cbn [andb negb map app]. fold st'. reflexivity. }
  rewrite Hrun. subst b.
  assert (Hb : updateResultsUI doc st' results
               = (fst (updateResultsUI doc st' results),
                  ResultsUIBuilder.build (fst (updateResultsUI doc st' results))))
    by reflexivity.
  split; [|split; [|split; [|split; [|split; [|split]]]]].
  - destruct (updateResultsUI doc st' results) as [b [[cards el]|e]];
      reflexivity.
  - destruct (updateResultsUI doc st' results) as [b [[cards el]|e]];
      cbn [snd]; rewrite !requestsOf_app; unfold catch, hideInfo;
      rewrite ?requestsOf_app, ?requestsOf_showInfo;
      destruct (infoCard doc); reflexivity.
  - reflexivity.
  - reflexivity.
  - reflexivity.
  - exact (BuilderFacts.fold_wellFormed
             [ResultsUIBuilder.CallSetKeyword (VStr (keyword st'));
              ResultsUIBuilder.CallSetPage (VNum (ofZ (page st')));
              ResultsUIBuilder.CallSetCount
                (coalesce (getOpt results "count") (VNum (Fin 0)));
              ResultsUIBuilder.CallSetTotalPages
                (coalesce (getOpt results "totalPages")
                   (coalesce (VNum (Fin (totalPages st'))) (VNum (Fin 1))));
              ResultsUIBuilder.CallSetProducts
                (coalesce (getOpt results "products") (VArr []));
              ResultsUIBuilder.CallOnPageClick (Some "changePage")]
             (ResultsUIBuilder.new (resultsHeader doc) (pagination doc)
                (resultsContainer doc))
             (conj eq_refl (conj eq_refl (conj eq_refl eq_refl)))).
  - intros cards el Hbuild. rewrite Hb, Hbuild. reflexivity.
Qed.

Lemma successful_submit_witness :
  let doc := mkDocument " phone " "2" true None None None in
  let results := VObj [("totalPages", VNum (ofZ 7)); ("count", VNum (ofZ 0))] in
  trim (keywordInput_value doc) <> ""
  /\ 200 <= 200 <= 299
  /\ fst (scrapeAmazon (host := exampleHost) doc
            (fun _ => Response 200 (Some results)) (mkData "laptop" 3 (Some 1) 5))
     = mkData "phone" 1 (Some 2) 7.
Proof.
  cbv zeta. split; [discriminate|]. split; [lia|].
  exact (proj1 (successful_submit exampleHost
                  (mkDocument " phone " "2" true None None None)
                  (fun _ => Response 200
                              (Some (VObj [("totalPages", VNum (ofZ 7));
                                           ("count", VNum (ofZ 0))])))
                  (mkData "laptop" 3 (Some 1) 5) 200
                  (VObj [("totalPages", VNum (ofZ 7)); ("count", VNum (ofZ 0))])
                  ltac:(discriminate) eq_refl ltac:(lia))).
Defined.

End HandlerFacts.

(** ** The star mask *)

Module StarMaskFacts.
Import JS ResultsUIRender ViewSpec.

(** The mask for a finite rating, by the floor of the rating. *)
Lemma mask_of_floor (q : Q) :
  ratingToStars (Fin q)
  = let f := Qfloor q in
    let half := Qle_bool (1 # 2) (q - inject_Z f) in
    map (fun i : Z =>
           if i <? f then 1%Q
           else if (i =? f) && half then (1 # 2)%Q
           else 0%Q)
      [0; 1; 2; 3; 4].
Proof.
  unfold ratingToStars. cbn [Math_floor minus ge lt strictEq]. cbv zeta.
  assert (Hlt : forall i, Qlt_bool (inject_Z i) (inject_Z (Qfloor q))
                          = (i <? Qfloor q)).
  { intros i. destruct (Z.ltb_spec i (Qfloor q)) as [H|H].
    - apply BuilderFacts.Qlt_bool_true. now rewrite <- Zlt_Qlt.
    - destruct (Qlt_bool _ _) eqn:E; [|reflexivity].
      apply BuilderFacts.Qlt_bool_true in E. rewrite <- Zlt_Qlt in E. lia. }
  assert (Heq : forall i, Qeq_bool (inject_Z i) (inject_Z (Qfloor q))
                          = (i =? Qfloor q)).
  { intros i. destruct (Z.eqb_spec i (Qfloor q)) as [->|H].
    - apply Qeq_bool_refl.
    - destruct (Qeq_bool _ _) eqn:E; [|reflexivity].
      apply Qeq_bool_eq in E. rewrite inject_Z_injective in E. contradiction. }
  assert (Hhalf : negb (Qlt_bool (q - inject_Z (Qfloor q)) (1 # 2))
                  = Qle_bool (1 # 2) (q - inject_Z (Qfloor q))).
  { unfold Qlt_bool. now rewrite negb_involutive. }
  rewrite Hhalf. apply map_ext. intros i. unfold ofZ. cbn [lt strictEq].
  now rewrite Hlt, Heq.
Qed.

(** X20. [#ratingToStars] always returns five slots. For a rating within
    [0, 5] each slot is 0, 1/2 or 1 and the slots add up to the rating
    rounded down to a half: the sum is at most the rating and less than
    half a star below it. A rating that is [NaN] gives five empty slots. *)
Theorem star_mask_rounds_down (q : Q) :
  (0 <= q)%Q -> (q <= 5)%Q ->
  length (ratingToStars (Fin q)) = 5%nat
  /\ Forall (fun x => x = 0%Q \/ x = (1 # 2)%Q \/ x = 1%Q) (ratingToStars (Fin q))
  /\ (sumQ (ratingToStars (Fin q)) <= q)%Q
  /\ (q < sumQ (ratingToStars (Fin q)) + (1 # 2))%Q
  /\ ratingToStars NaN = [0%Q; 0%Q; 0%Q; 0%Q; 0%Q].
Proof.
  intros H0 H5. rewrite mask_of_floor. cbv zeta.
  pose proof (Qfloor_le q) as Hlo. pose proof (Qlt_floor q) as Hhi.
  assert (Hf : 0 <= Qfloor q <= 5).
  { split.
    - apply Qfloor_resp_le in H0. exact H0.
    - apply Qfloor_resp_le in H5. exact H5. }
  rewrite inject_Z_plus in Hhi.
  remember (Qfloor q) as f eqn:Ef.
  destruct (Qle_bool (1 # 2) (q - inject_Z f)) eqn:Eh;
    [apply Qle_bool_iff in Eh | apply BuilderFacts.Qle_bool_false in Eh];
    assert (Hcases : f = 0 \/ f = 1 \/ f = 2 \/ f = 3 \/ f = 4 \/ f = 5) by lia;
    destruct Hcases as [->|[->|[->|[->|[->| ->]]]]];
    cbn [map Z.ltb Z.eqb Z.compare Pos.compare Pos.compare_cont Pos.eqb andb
         sumQ fold_right length] in *;
    (split; [reflexivity|]);
    unfold inject_Z in *;
    (split; [repeat (apply Forall_cons; [auto|]); apply Forall_nil|]);
    (split; [lra|]); (split; [lra | reflexivity]).
Qed.

Lemma star_mask_rounds_down_witness :
  (0 <= 7 # 2)%Q /\ (7 # 2 <= 5)%Q
  /\ ratingToStars (Fin (7 # 2)) = [1%Q; 1%Q; 1%Q; (1 # 2)%Q; 0%Q]
  /\ (sumQ (ratingToStars (Fin (7 # 2))) <= 7 # 2)%Q.
Proof.
  assert (H0 : (0 <= 7 # 2)%Q) by discriminate.
  assert (H5 : (7 # 2 <= 5)%Q) by discriminate.
  split; [exact H0|]. split; [exact H5|]. split; [reflexivity|].
  exact (proj1 (proj2 (proj2 (star_mask_rounds_down (7 # 2) H0 H5)))).
Defined.

End StarMaskFacts.
